(** * yoked_backend: the program service and the user service

    A shallow embedding of the Go services of [internal/services]
    (program_service.go, user_service.go), of the PostgreSQL repository
    they call (repository/program_repo.go, user_repository.go) and of the
    table constraints of [internal/db/schema.sql], followed by the
    properties of the weight calculator, of program assignment, of profile
    updates and of workout logging.

    Conventions of the embedding.
    - A Go [int] is a [Z]; where the code does integer arithmetic the
      64-bit wrap-around is written out ([wrap64]).
    - A Go [float64] is a [float64] below: an exact rational, an infinity
      or NaN. The rounding of binary64 arithmetic and signed zeros are
      abstracted; the special values that decide control flow (NaN from
      0/0, comparisons with NaN) are kept.
    - program_service.go declares the results of [calculateBaseStrength]
      and [getExerciseModifier], the values of the weight map of
      [CalculateInitialWeights] and the field [PrescribedWeight] as [int]
      while it assigns them the literals 0.6, 0.8, 1.2, 2.5 and float64
      expressions; the Go type checker does not accept that text. They are
      read here as float64 (the column [prescribed_weight] is REAL), and
      [user.Age] is converted where it meets a float64.
    - [time.Time] is a [Z]; [time.Now()] is an argument [now].
    - A table is the list of its rows, each row the Go struct it scans
      into. Modelled failures: no row for [QueryRow], no row affected by
      an UPDATE, and the NOT NULL, CHECK and FOREIGN KEY constraints of
      schema.sql on INSERT and UPDATE. Connection failures, NULL columns
      and column widths (VARCHAR(n), DECIMAL(p,s)) are not modelled. *)

From Stdlib Require Import ZArith QArith Qround Lqa Ascii String List Lia Bool.
From stdpp Require Import gmap strings list sorting fin_maps.

Close Scope Q_scope.
Open Scope Z_scope.

(** ** Numbers *)

(** Go's [int] on the 64-bit targets of the service: two's complement. *)
Definition wrap64 (z : Z) : Z := (z + 2 ^ 63) mod 2 ^ 64 - 2 ^ 63.

Definition is_int64 (z : Z) : Prop := - 2 ^ 63 <= z < 2 ^ 63.

(** PostgreSQL's INTEGER, the element type of [actual_reps] and
    [actual_rir]. *)
Definition is_int32 (z : Z) : Prop := - 2 ^ 31 <= z < 2 ^ 31.

Inductive float64 : Type :=
| F (q : Q)          (* a finite value *)
| Inf (neg : bool)   (* +Inf when [neg = false], -Inf when [neg = true] *)
| NaN.

Declare Scope float64_scope.
Delimit Scope float64_scope with f.
Bind Scope float64_scope with float64.

Definition Qsign_b (q : Q) : bool := negb (Qle_bool 0 q).

Definition fneg (x : float64) : float64 :=
  match x with
  | F q => F (- q)
  | Inf s => Inf (negb s)
  | NaN => NaN
  end.

Definition fadd (x y : float64) : float64 :=
  match x, y with
  | F a, F b => F (a + b)
  | F _, Inf s => Inf s
  | Inf s, F _ => Inf s
  | Inf s, Inf t => if Bool.eqb s t then Inf s else NaN
  | _, _ => NaN
  end.

Definition fsub (x y : float64) : float64 := fadd x (fneg y).

Definition fmul (x y : float64) : float64 :=
  match x, y with
  | F a, F b => F (a * b)
  | F a, Inf s => if Qeq_bool a 0 then NaN else Inf (xorb s (Qsign_b a))
  | Inf s, F a => if Qeq_bool a 0 then NaN else Inf (xorb s (Qsign_b a))
  | Inf s, Inf t => Inf (xorb s t)
  | _, _ => NaN
  end.

Definition fdiv (x y : float64) : float64 :=
  match x, y with
  | F a, F b =>
      if Qeq_bool b 0
      then (if Qeq_bool a 0 then NaN else Inf (Qsign_b a))
      else F (a / b)
  | F _, Inf _ => F 0
  | Inf s, F b => Inf (xorb s (Qsign_b b))
  | _, _ => NaN
  end.

(** Comparisons; every comparison with NaN is false. *)
Definition fle (x y : float64) : bool :=
  match x, y with
  | F a, F b => Qle_bool a b
  | F _, Inf t => negb t
  | Inf s, F _ => s
  | Inf s, Inf t => s || negb t
  | _, _ => false
  end.

Definition fge (x y : float64) : bool := fle y x.

Definition flt (x y : float64) : bool :=
  match x, y with
  | NaN, _ | _, NaN => false
  | _, _ => negb (fle y x)
  end.

Definition fgt (x y : float64) : bool := flt y x.

Infix "+" := fadd : float64_scope.
Infix "-" := fsub : float64_scope.
Infix "*" := fmul : float64_scope.
Infix "/" := fdiv : float64_scope.
Infix "<=?" := fle : float64_scope.
Infix ">=?" := fge (at level 70) : float64_scope.
Infix "<?" := flt : float64_scope.
Infix ">?" := fgt (at level 70) : float64_scope.

(** The conversion [float64(n)] of an [int]. *)
Definition float64_of_int (n : Z) : float64 := F (inject_Z n).

(** Equality of float64 values as numbers: rationals up to [Qeq]. *)
Definition feq (x y : float64) : Prop :=
  match x, y with
  | F a, F b => Qeq a b
  | Inf s, Inf t => s = t
  | _, _ => False
  end.

(** [math.Round]: the nearest integer, halves away from zero; infinities
    and NaN are returned unchanged. *)
Definition Qround_half_away (q : Q) : Z :=
  if Qle_bool 0 q then Qfloor (q + (1 # 2)) else Qceiling (q - (1 # 2)).

Definition math_Round (x : float64) : float64 :=
  match x with
  | F q => F (inject_Z (Qround_half_away q))
  | other => other
  end.

(** ** The progression calculator (program_service.go) *)

(** [calculateAverageRIR]: the loop [sum += rir] over the slice, then
    [float64(sum) / float64(len(rirArray))]. *)
Definition calculateAverageRIR (rirArray : list Z) : float64 :=
  let sum := foldl (fun sum rir => wrap64 (sum + rir)) 0 rirArray in
  (float64_of_int sum / float64_of_int (Z.of_nat (length rirArray)))%f.

(** [calculateWeightAdjustment]: the expressionless [switch], cases tried
    from the top. *)
Definition calculateWeightAdjustment (actualRIR targetRIR : float64) : float64 :=
  let difference := (targetRIR - actualRIR)%f in
  if (difference >=? F 2)%f then F 0.9
  else if (difference <=? F (-2))%f then F 1.1
  else if (difference >=? F 1)%f then F 0.95
  else if (difference <=? F (-1))%f then F 1.05
  else F 1.0.

(** The tier table of the specification, on a real-valued difference. *)
Definition tier_multiplier (difference : Q) : Q :=
  if Qle_bool 2 difference then 0.90%Q
  else if Qle_bool difference (-2) then 1.10%Q
  else if Qle_bool 1 difference then 0.95%Q
  else if Qle_bool difference (-1) then 1.05%Q
  else 1.00%Q.


(** ** The models (internal/models) *)

Definition time := Z.

Module User.
Record t : Type := mk {
  ID : string;
  Email : string;
  PasswordHash : string;
  Name : string;
  Age : Z;
  Sex : string;
  Height : float64;
  Weight : float64;
  ActivityLevel : string;
  Goal : string;
  ProgramID : Z;
  WeeklyBudget : float64;
  CreatedAt : time;
  UpdatedAt : time
}.

(** Assignments to one field of [*models.User]. *)
Definition set_ID (v : string) (u : t) : t :=
  mk v (Email u) (PasswordHash u) (Name u) (Age u) (Sex u) (Height u) (Weight u)
     (ActivityLevel u) (Goal u) (ProgramID u) (WeeklyBudget u)
     (CreatedAt u) (UpdatedAt u).
Definition set_PasswordHash (v : string) (u : t) : t :=
  mk (ID u) (Email u) v (Name u) (Age u) (Sex u) (Height u) (Weight u)
     (ActivityLevel u) (Goal u) (ProgramID u) (WeeklyBudget u)
     (CreatedAt u) (UpdatedAt u).
Definition set_Name (v : string) (u : t) : t :=
  mk (ID u) (Email u) (PasswordHash u) v (Age u) (Sex u) (Height u)
     (Weight u) (ActivityLevel u) (Goal u) (ProgramID u) (WeeklyBudget u)
     (CreatedAt u) (UpdatedAt u).
Definition set_Age (v : Z) (u : t) : t :=
  mk (ID u) (Email u) (PasswordHash u) (Name u) v (Sex u) (Height u)
     (Weight u) (ActivityLevel u) (Goal u) (ProgramID u) (WeeklyBudget u)
     (CreatedAt u) (UpdatedAt u).
Definition set_Height (v : float64) (u : t) : t :=
  mk (ID u) (Email u) (PasswordHash u) (Name u) (Age u) (Sex u) v
     (Weight u) (ActivityLevel u) (Goal u) (ProgramID u) (WeeklyBudget u)
     (CreatedAt u) (UpdatedAt u).
Definition set_Weight (v : float64) (u : t) : t :=
  mk (ID u) (Email u) (PasswordHash u) (Name u) (Age u) (Sex u) (Height u)
     v (ActivityLevel u) (Goal u) (ProgramID u) (WeeklyBudget u)
     (CreatedAt u) (UpdatedAt u).
Definition set_ActivityLevel (v : string) (u : t) : t :=
  mk (ID u) (Email u) (PasswordHash u) (Name u) (Age u) (Sex u) (Height u)
     (Weight u) v (Goal u) (ProgramID u) (WeeklyBudget u)
     (CreatedAt u) (UpdatedAt u).
Definition set_Goal (v : string) (u : t) : t :=
  mk (ID u) (Email u) (PasswordHash u) (Name u) (Age u) (Sex u) (Height u)
     (Weight u) (ActivityLevel u) v (ProgramID u) (WeeklyBudget u)
     (CreatedAt u) (UpdatedAt u).
Definition set_ProgramID (v : Z) (u : t) : t :=
  mk (ID u) (Email u) (PasswordHash u) (Name u) (Age u) (Sex u) (Height u)
     (Weight u) (ActivityLevel u) (Goal u) v (WeeklyBudget u)
     (CreatedAt u) (UpdatedAt u).
Definition set_WeeklyBudget (v : float64) (u : t) : t :=
  mk (ID u) (Email u) (PasswordHash u) (Name u) (Age u) (Sex u) (Height u)
     (Weight u) (ActivityLevel u) (Goal u) (ProgramID u) v
     (CreatedAt u) (UpdatedAt u).
End User.

Module Program.
Record t : Type := mk {
  ID : Z;
  Name : string;
  Description : string;
  Goal : string;
  EstimatedWeeks : Z;
  CreatedAt : time
}.
End Program.

Module ProgramWorkout.
Record t : Type := mk {
  ID : Z;
  ProgramID : Z;
  Name : string;
  DayOfWeek : Z;
  Description : string;
  CreatedAt : time
}.
End ProgramWorkout.

Module ProgramWorkoutExercise.
Record t : Type := mk {
  ID : Z;
  ProgramWorkoutID : Z;
  ExerciseID : Z;
  Sets : Z;
  Reps : Z;
  TargetRIR : Z;
  PrescribedWeight : float64;
  ExerciseOrder : Z;
  Notes : string
}.
End ProgramWorkoutExercise.

Module UserProgram.
Record t : Type := mk {
  ID : Z;
  UserID : string;
  ProgramID : Z;
  StartDate : time;
  IsActive : bool;
  CreatedAt : time
}.

Definition set_IsActive (v : bool) (up : t) : t :=
  mk (ID up) (UserID up) (ProgramID up) (StartDate up) v (CreatedAt up).

Definition set_ID (v : Z) (up : t) : t :=
  mk v (UserID up) (ProgramID up) (StartDate up) (IsActive up) (CreatedAt up).
End UserProgram.

Module WorkoutSession.
Record t : Type := mk {
  ID : Z;
  UserProgramID : Z;
  ProgramWorkoutID : Z;
  CompletedDate : time;
  Notes : string;
  CreatedAt : time
}.
End WorkoutSession.

Module WorkoutExerciseLog.
Record t : Type := mk {
  ID : Z;
  WorkoutID : Z;
  ProgramWorkoutExerciseID : Z;
  ActualReps : list Z;
  ActualRIR : list Z;
  CreatedAt : time
}.
End WorkoutExerciseLog.

(** [ExerciseLogRequest] of program_service.go. *)
Module ExerciseLogRequest.
Record t : Type := mk {
  ProgramWorkoutExerciseID : Z;
  ActualReps : list Z;
  ActualRIR : list Z
}.
End ExerciseLogRequest.

(** ** Errors *)

Inductive error : Type :=
| pgx_ErrNoRows                  (* pgx.ErrNoRows, from [QueryRow(...).Scan] *)
| fmt_Errorf (msg : string)      (* an error built by [fmt.Errorf] *)
| PgError (constraint : string). (* a constraint violation reported by PostgreSQL *)

(** [err.Error()]. The repositories are built on
    github.com/jackc/pgx/v5, whose [ErrNoRows] reads
    "no rows in result set"; the text of a constraint violation is
    abridged to the name of the constraint. *)
Definition Error (e : error) : string :=
  match e with
  | pgx_ErrNoRows => "no rows in result set"
  | fmt_Errorf msg => msg
  | PgError c => "ERROR: new row violates constraint " ++ c
  end.

(** [fmt.Errorf(prefix + ": %w", err)]. *)
Definition wrap_error (prefix : string) (err : error) : error :=
  fmt_Errorf (prefix ++ ": " ++ Error err).

(** ** The database (internal/db/schema.sql) *)

Record DB : Type := mkDB {
  users : list (User.t * bool);   (* a row and [deleted_at IS NOT NULL] *)
  programs : list Program.t;
  program_workouts : list ProgramWorkout.t;
  program_workout_exercises : list ProgramWorkoutExercise.t;
  user_programs : list UserProgram.t;
  workouts : list WorkoutSession.t;
  workout_exercises : list WorkoutExerciseLog.t;
  user_programs_id_seq : Z;       (* the SERIAL counters *)
  workout_exercises_id_seq : Z
}.

Definition with_users (v : list (User.t * bool)) (db : DB) : DB :=
  mkDB v (programs db) (program_workouts db) (program_workout_exercises db)
       (user_programs db) (workouts db) (workout_exercises db)
       (user_programs_id_seq db) (workout_exercises_id_seq db).

Definition with_user_programs (v : list UserProgram.t) (seq : Z) (db : DB) : DB :=
  mkDB (users db) (programs db) (program_workouts db)
       (program_workout_exercises db) v (workouts db) (workout_exercises db)
       seq (workout_exercises_id_seq db).

Definition with_workout_exercises (v : list WorkoutExerciseLog.t) (seq : Z) (db : DB) : DB :=
  mkDB (users db) (programs db) (program_workouts db)
       (program_workout_exercises db) (user_programs db) (workouts db) v
       (user_programs_id_seq db) seq.

Definition with_workouts (v : list WorkoutSession.t) (db : DB) : DB :=
  mkDB (users db) (programs db) (program_workouts db)
       (program_workout_exercises db) (user_programs db) v (workout_exercises db)
       (user_programs_id_seq db) (workout_exercises_id_seq db).

(** [ORDER BY key] and [ORDER BY key DESC]: the rows are compared on one
    integer column. *)
Definition asc {A : Type} (key : A → Z) (a b : A) : Prop := key a ≤ key b.
Definition desc {A : Type} (key : A → Z) (a b : A) : Prop := key b ≤ key a.

#[global] Instance asc_dec {A : Type} (key : A → Z) (a b : A) : Decision (asc key a b) :=
  decide (key a ≤ key b).
#[global] Instance desc_dec {A : Type} (key : A → Z) (a b : A) : Decision (desc key a b) :=
  decide (key b ≤ key a).

(** ** The program repository (repository/program_repo.go) *)

Module ProgramRepository.
Import UserProgram.

(** [SELECT ... FROM program_workouts WHERE program_id = $1
    ORDER BY day_of_week]. *)
Definition GetProgramWorkouts (db : DB) (programID : Z) : list ProgramWorkout.t :=
  merge_sort (asc ProgramWorkout.DayOfWeek)
    (filter (λ w, ProgramWorkout.ProgramID w = programID) (program_workouts db)).

(** [SELECT ... FROM program_workout_exercises
    WHERE program_workout_id = $1 ORDER BY exercise_order]. *)
Definition GetProgramWorkoutExercises (db : DB) (workoutID : Z)
  : list ProgramWorkoutExercise.t :=
  merge_sort (asc ProgramWorkoutExercise.ExerciseOrder)
    (filter (λ e, ProgramWorkoutExercise.ProgramWorkoutID e = workoutID)
            (program_workout_exercises db)).

(** [SELECT ... FROM program_workout_exercises WHERE id = $1], one row. *)
Definition GetProgramWorkoutExercise (db : DB) (id : Z)
  : option ProgramWorkoutExercise.t * option error :=
  match filter (λ e, ProgramWorkoutExercise.ID e = id) (program_workout_exercises db) with
  | exercise :: _ => (Some exercise, None)
  | [] => (None, Some pgx_ErrNoRows)
  end.

(** [INSERT INTO user_programs (user_id, program_id, start_date,
    is_active) VALUES ... RETURNING id, created_at]; [user_id] and
    [program_id] are foreign keys. The struct with [ID] and [CreatedAt]
    filled in is returned next to the error. *)
Definition CreateUserProgram (db : DB) (now : time) (userProgram : UserProgram.t)
  : DB * UserProgram.t * option error :=
  if negb (existsb (λ u, String.eqb (User.ID u.1) (UserID userProgram)) (users db))
  then (db, userProgram, Some (PgError "user_programs_user_id_fkey"))
  else if negb (existsb (λ p, Program.ID p =? ProgramID userProgram) (programs db))
  then (db, userProgram, Some (PgError "user_programs_program_id_fkey"))
  else
    let row := mk (user_programs_id_seq db) (UserID userProgram)
                  (ProgramID userProgram) (StartDate userProgram)
                  (IsActive userProgram) now in
    (with_user_programs (user_programs db ++ [row]) (user_programs_id_seq db + 1) db,
     row, None).

(** [SELECT ... FROM user_programs WHERE user_id = $1 AND is_active =
    true], first row; the error of [Scan] is returned as it is. *)
Definition GetUserActiveProgram (db : DB) (userID : string)
  : option UserProgram.t * option error :=
  match filter (λ up, UserID up = userID ∧ IsActive up = true) (user_programs db) with
  | userProgram :: _ => (Some userProgram, None)
  | [] => (None, Some pgx_ErrNoRows)
  end.

(** [UPDATE user_programs SET is_active = $1 WHERE id = $2], then the
    test of [RowsAffected]. *)
Definition UpdateUserProgram (db : DB) (userProgram : UserProgram.t)
  : DB * option error :=
  let rows := length (filter (λ up, ID up = ID userProgram) (user_programs db)) in
  if (rows =? 0)%nat
  then (db, Some (fmt_Errorf "user program not found"))
  else
    (with_user_programs
       (map (λ up, if decide (ID up = ID userProgram)
                   then set_IsActive (IsActive userProgram) up else up)
            (user_programs db))
       (user_programs_id_seq db) db,
     None).

(** [SELECT w.* FROM workouts w JOIN user_programs up ON
    w.user_program_id = up.id WHERE up.user_id = $1 AND
    w.program_workout_id = $2 ORDER BY w.completed_date DESC LIMIT 1]. *)
Definition GetLastWorkoutSessionByType (db : DB) (userID : string) (programWorkoutID : Z)
  : option WorkoutSession.t * option error :=
  let joined :=
    filter (λ w, existsb (λ up, (ID up =? WorkoutSession.UserProgramID w)
                                 && String.eqb (UserID up) userID)
                         (user_programs db) = true
                 ∧ WorkoutSession.ProgramWorkoutID w = programWorkoutID)
           (workouts db) in
  match merge_sort (desc WorkoutSession.CompletedDate) joined with
  | session :: _ => (Some session, None)
  | [] => (None, Some pgx_ErrNoRows)
  end.

(** The constraints of the table [workout_exercises]: both arrays NOT
    NULL with [array_length(_, 1) > 0], and [same_number_of_sets]. The
    elements are INTEGER. *)
Definition workout_exercises_check (log : WorkoutExerciseLog.t) : option string :=
  let reps := WorkoutExerciseLog.ActualReps log in
  let rir := WorkoutExerciseLog.ActualRIR log in
  if negb (forallb (λ n, (- 2 ^ 31 <=? n) && (n <? 2 ^ 31)) (reps ++ rir))
  then Some "integer out of range"
  else if (length reps =? 0)%nat then Some "workout_exercises_actual_reps_check"
  else if (length rir =? 0)%nat then Some "workout_exercises_actual_rir_check"
  else if negb (length reps =? length rir)%nat then Some "same_number_of_sets"
  else None.

(** [INSERT INTO workout_exercises (workout_id,
    program_workout_exercise_id, actual_reps, actual_rir) VALUES ...
    RETURNING id, created_at]. *)
Definition CreateWorkoutExerciseLog (db : DB) (now : time) (log : WorkoutExerciseLog.t)
  : DB * option error :=
  match workout_exercises_check log with
  | Some c => (db, Some (PgError c))
  | None =>
      if negb (existsb (λ w, WorkoutSession.ID w =? WorkoutExerciseLog.WorkoutID log)
                       (workouts db))
      then (db, Some (PgError "workout_exercises_workout_id_fkey"))
      else if negb (existsb (λ e, ProgramWorkoutExercise.ID e
                                   =? WorkoutExerciseLog.ProgramWorkoutExerciseID log)
                            (program_workout_exercises db))
      then (db, Some (PgError "workout_exercises_program_workout_exercise_id_fkey"))
      else
        let row := WorkoutExerciseLog.mk (workout_exercises_id_seq db)
                     (WorkoutExerciseLog.WorkoutID log)
                     (WorkoutExerciseLog.ProgramWorkoutExerciseID log)
                     (WorkoutExerciseLog.ActualReps log)
                     (WorkoutExerciseLog.ActualRIR log) now in
        (with_workout_exercises (workout_exercises db ++ [row])
                                (workout_exercises_id_seq db + 1) db,
         None)
  end.

(** [SELECT ... FROM workout_exercises WHERE workout_id = $1 ORDER BY id]. *)
Definition GetExerciseLogsByWorkout (db : DB) (workoutID : Z)
  : list WorkoutExerciseLog.t :=
  merge_sort (asc WorkoutExerciseLog.ID)
    (filter (λ l, WorkoutExerciseLog.WorkoutID l = workoutID) (workout_exercises db)).


(** [INSERT INTO workouts (user_program_id, program_workout_id,
    completed_date, notes) VALUES ... RETURNING id, created_at]. The id
    is the one that the sequence of the SERIAL column draws, here the
    argument [id]; [id] is the primary key, [user_program_id] and
    [program_workout_id] are foreign keys. The function returns
    [session.ID] and the error; the struct behind the pointer is
    returned with them, [ID] and [CreatedAt] filled in on success. *)
Definition CreateWorkoutSession (db : DB) (now : time) (id : Z)
    (session : WorkoutSession.t) : DB * WorkoutSession.t * Z * option error :=
  if existsb (λ w, WorkoutSession.ID w =? id) (workouts db)
  then (db, session, WorkoutSession.ID session, Some (PgError "workouts_pkey"))
  else if negb (existsb (λ up, ID up =? WorkoutSession.UserProgramID session)
                        (user_programs db))
  then (db, session, WorkoutSession.ID session,
        Some (PgError "workouts_user_program_id_fkey"))
  else if negb (existsb (λ pw, ProgramWorkout.ID pw
                                =? WorkoutSession.ProgramWorkoutID session)
                        (program_workouts db))
  then (db, session, WorkoutSession.ID session,
        Some (PgError "workouts_program_workout_id_fkey"))
  else
    let row := WorkoutSession.mk id (WorkoutSession.UserProgramID session)
                 (WorkoutSession.ProgramWorkoutID session)
                 (WorkoutSession.CompletedDate session)
                 (WorkoutSession.Notes session) now in
    (with_workouts (workouts db ++ [row]) db, row, id, None).

(** [SELECT ... FROM workouts WHERE user_program_id = $1 ORDER BY
    completed_date DESC LIMIT $2]. A negative limit makes the statement
    fail when it is executed; that error stays in [rows.Err()], which
    the function does not read, so the loop ends at once with no rows:
    the result is that of the limit 0. *)
Definition GetWorkoutSessionsByUserProgram (db : DB) (userProgramID limit : Z)
  : list WorkoutSession.t * option error :=
  (take (Z.to_nat limit)
     (merge_sort (desc WorkoutSession.CompletedDate)
        (filter (λ w, WorkoutSession.UserProgramID w = userProgramID) (workouts db))),
   None).
End ProgramRepository.

(** ** The program service (program_service.go) *)

Module ProgramService.
Import ProgramRepository.

(** [AssignProgramToUser]. The lookup error is let through only when its
    text is "sql: no rows in result set". *)
Definition AssignProgramToUser (db : DB) (now : time) (userID : string) (programID : Z)
  : DB * option error :=
  let '(currentProgram, err) := GetUserActiveProgram db userID in
  if match err with
     | Some e => negb (String.eqb (Error e) "sql: no rows in result set")
     | None => false
     end
  then (db, err)
  else
    let '(db, err) :=
      match currentProgram with
      | Some currentProgram =>
          let currentProgram := UserProgram.set_IsActive false currentProgram in
          UpdateUserProgram db currentProgram
      | None => (db, None)
      end in
    match err with
    | Some e => (db, Some e)
    | None =>
        let userProgram := UserProgram.mk 0 userID programID now true 0 in
        let '(db, _, err) := CreateUserProgram db now userProgram in
        (db, err)
    end.

(** [calculateBaseStrength]. In the two age terms the [int] expressions
    [user.Age-13] and [user.Age-35] stand under a float64 literal; they
    are converted to float64 before the division, the reading under which
    [0.9 + ...] and [1.1 - ...] are float64 values. *)
Definition calculateBaseStrength (user : User.t) : float64 :=
  let base := (User.Weight user * F 0.6)%f in
  let base := if String.eqb (User.Sex user) "male" then (base * F 1.2)%f else base in
  if User.Age user <? 25
  then (base * (F 0.9 + float64_of_int (wrap64 (User.Age user - 13)) / F 120))%f
  else if User.Age user >? 35
  then (base * (F 1.1 - float64_of_int (wrap64 (User.Age user - 35)) / F 100))%f
  else base.

(** [getExerciseModifier]: a map literal and an index expression; a key
    that is absent yields the zero value of the element type. *)
Definition modifiers : gmap Z float64 :=
  {[ 1 := F 1.0;    (* Bench press *)
     2 := F 0.8;    (* Shoulder press *)
     3 := F 1.2;    (* Squat *)
     4 := F 1.1;    (* Deadlift *)
     5 := F 0.5 ]}. (* Bicep curl *)

Definition getExerciseModifier (exerciseID : Z) : float64 :=
  default (F 0) (modifiers !! exerciseID).

(** The body of the inner loop of [CalculateInitialWeights]: the value
    stored at [weightMap[exercise.ID]]. *)
Definition suggestedWeight (user : User.t) (exercise : ProgramWorkoutExercise.t)
  : float64 :=
  if (ProgramWorkoutExercise.PrescribedWeight exercise >? F 0)%f
  then ProgramWorkoutExercise.PrescribedWeight exercise
  else
    let baseStrength := calculateBaseStrength user in
    let exerciseModifier := getExerciseModifier (ProgramWorkoutExercise.ExerciseID exercise) in
    let suggestedWeight := (baseStrength * exerciseModifier)%f in
    (math_Round (suggestedWeight / F 2.5) * F 2.5)%f.

(** [CalculateInitialWeights]. *)
Definition CalculateInitialWeights (db : DB) (user : User.t) (programID : Z)
  : gmap Z float64 * option error :=
  let workouts := GetProgramWorkouts db programID in
  let weightMap : gmap Z float64 :=
    foldl (λ weightMap workout,
             let exercises := GetProgramWorkoutExercises db (ProgramWorkout.ID workout) in
             foldl (λ weightMap exercise,
                      <[ProgramWorkoutExercise.ID exercise := suggestedWeight user exercise]>
                        weightMap)
                   weightMap exercises)
          ∅ workouts in
  (weightMap, None).

(** [CompleteWorkoutSession]: one INSERT per request, in order; the
    first failure ends the loop and what was inserted stays. *)
Fixpoint CompleteWorkoutSession (db : DB) (now : time) (sessionID : Z)
    (exercises : list ExerciseLogRequest.t) : DB * option error :=
  match exercises with
  | [] => (db, None)
  | exercise :: exercises =>
      let log := WorkoutExerciseLog.mk 0 sessionID
                   (ExerciseLogRequest.ProgramWorkoutExerciseID exercise)
                   (ExerciseLogRequest.ActualReps exercise)
                   (ExerciseLogRequest.ActualRIR exercise) 0 in
      match CreateWorkoutExerciseLog db now log with
      | (db, Some err) => (db, Some err)
      | (db, None) => CompleteWorkoutSession db now sessionID exercises
      end
  end.

(** The body of the loop of [CalculateNextWorkoutWeights] once the
    template row is read: the value stored in the weight map. *)
Definition nextWeight (exerciseLog : WorkoutExerciseLog.t)
    (programExercise : ProgramWorkoutExercise.t) : float64 :=
  let avgRIR := calculateAverageRIR (WorkoutExerciseLog.ActualRIR exerciseLog) in
  let weightAdjustment :=
    calculateWeightAdjustment avgRIR
      (float64_of_int (ProgramWorkoutExercise.TargetRIR programExercise)) in
  let currentWeight := F 50.0 in
  let newWeight := (currentWeight * weightAdjustment)%f in
  (math_Round (newWeight / F 2.5) * F 2.5)%f.

Fixpoint nextWeightsLoop (db : DB) (weightMap : gmap Z float64)
    (exerciseLogs : list WorkoutExerciseLog.t) : option (gmap Z float64) * option error :=
  match exerciseLogs with
  | [] => (Some weightMap, None)
  | exerciseLog :: exerciseLogs =>
      match GetProgramWorkoutExercise db
              (WorkoutExerciseLog.ProgramWorkoutExerciseID exerciseLog) with
      | (Some programExercise, None) =>
          nextWeightsLoop db
            (<[WorkoutExerciseLog.ProgramWorkoutExerciseID exerciseLog
               := nextWeight exerciseLog programExercise]> weightMap)
            exerciseLogs
      | (_, Some err) => (None, Some err)
      | (None, None) => (None, None) (* never returned by the repository *)
      end
  end.

(** [CalculateNextWorkoutWeights]. *)
Definition CalculateNextWorkoutWeights (db : DB) (userID : string) (programWorkoutID : Z)
  : option (gmap Z float64) * option error :=
  match GetLastWorkoutSessionByType db userID programWorkoutID with
  | (_, Some err) => (None, Some err)
  | (None, None) => (None, Some (fmt_Errorf "no previous workout session found"))
  | (Some lastSession, None) =>
      let exerciseLogs := GetExerciseLogsByWorkout db (WorkoutSession.ID lastSession) in
      nextWeightsLoop db ∅ exerciseLogs
  end.

(** The response structures of [GetUserProgramWithWorkouts]. *)
Module ExerciseWithWeight.
Record t : Type := mk {
  ProgramExercise : ProgramWorkoutExercise.t;
  SuggestedWeight : float64
}.
End ExerciseWithWeight.

Module WorkoutDetail.
Record t : Type := mk {
  ProgramWorkout : ProgramWorkout.t;
  Exercises : list ExerciseWithWeight.t
}.
End WorkoutDetail.

Module UserProgramDetail.
Record t : Type := mk {
  UserProgram : UserProgram.t;
  Program : Program.t;
  Workouts : list WorkoutDetail.t
}.
End UserProgramDetail.


(** [StartWorkoutSession]; [id] is the id that the INSERT draws. *)
Definition StartWorkoutSession (db : DB) (now : time) (id : Z) (userID : string)
    (programWorkoutID : Z) : DB * option WorkoutSession.t * option error :=
  match GetUserActiveProgram db userID with
  | (_, Some err) => (db, None, Some err)
  | (None, None) => (db, None, Some (fmt_Errorf "no active program found for user"))
  | (Some userProgram, None) =>
      let session := WorkoutSession.mk 0 (UserProgram.ID userProgram)
                       programWorkoutID now "" 0 in
      match CreateWorkoutSession db now id session with
      | (db, _, _, Some err) => (db, None, Some err)
      | (db, session, sessionID, None) =>
          (db,
           Some (WorkoutSession.mk sessionID (WorkoutSession.UserProgramID session)
                   (WorkoutSession.ProgramWorkoutID session)
                   (WorkoutSession.CompletedDate session)
                   (WorkoutSession.Notes session) (WorkoutSession.CreatedAt session)),
           None)
      end
  end.

(** [GetWorkoutHistory]. *)
Definition GetWorkoutHistory (db : DB) (userID : string) (limit : Z)
  : list WorkoutSession.t * option error :=
  match GetUserActiveProgram db userID with
  | (_, Some err) => ([], Some err)
  | (None, None) => ([], Some (fmt_Errorf "no active program found for user"))
  | (Some userProgram, None) =>
      GetWorkoutSessionsByUserProgram db (UserProgram.ID userProgram) limit
  end.
End ProgramService.

(** ** The user repository (user_repository.go) *)

Module UserRepository.
(** The CHECK constraints of the table [users]. *)
Definition users_check (u : User.t) : bool :=
  (13 <=? User.Age u) && (User.Age u <=? 120)
  && bool_decide (User.Sex u ∈ ["male"; "female"; "other"])
  && (User.Height u >=? F 30)%f && (User.Height u <=? F 250)%f
  && (User.Weight u >=? F 20)%f && (User.Weight u <=? F 500)%f
  && bool_decide (User.ActivityLevel u ∈
       ["sedentary"; "lightly_active"; "moderately_active"; "very_active"; "extra_active"])
  && bool_decide (User.Goal u ∈ ["weight_loss"; "muscle_gain"; "maintenance"; "endurance"])
  && (User.ProgramID u >? 0).

(** [CreateUser]: [INSERT INTO users (...) VALUES (...) RETURNING id]. The
    id is the UUID that [gen_random_uuid()] draws, here the argument
    [uuid]; [id] is the primary key, [email] is UNIQUE. *)
Definition CreateUser (db : DB) (now : time) (uuid : string) (user : User.t)
  : DB * User.t * option error :=
  if existsb (λ r, String.eqb (User.ID r.1) uuid) (users db)
  then (db, user, Some (wrap_error "failed to create user" (PgError "users_pkey")))
  else if existsb (λ r, String.eqb (User.Email r.1) (User.Email user)) (users db)
  then (db, user, Some (wrap_error "failed to create user" (PgError "users_email_key")))
  else if negb (users_check user)
  then (db, user, Some (wrap_error "failed to create user" (PgError "users_check")))
  else
    let row := User.mk uuid (User.Email user) (User.PasswordHash user) (User.Name user)
                 (User.Age user) (User.Sex user) (User.Height user) (User.Weight user)
                 (User.ActivityLevel user) (User.Goal user) (User.ProgramID user)
                 (User.WeeklyBudget user) now now in
    (with_users (users db ++ [(row, false)]) db, User.set_ID uuid user, None).

(** [CreateUserProgram] of the user repository: [INSERT INTO
    user_programs(user_id, program_id, start_date, is_active, created_at)
    VALUES (...) RETURNING id]. *)
Definition CreateUserProgram (db : DB) (now : time) (userProgram : UserProgram.t)
  : DB * UserProgram.t * option error :=
  if negb (existsb (λ u, String.eqb (User.ID u.1) (UserProgram.UserID userProgram))
                   (users db))
  then (db, userProgram,
        Some (wrap_error "Failed to create user program" (PgError "user_programs_user_id_fkey")))
  else if negb (existsb (λ p, Program.ID p =? UserProgram.ProgramID userProgram)
                        (programs db))
  then (db, userProgram,
        Some (wrap_error "Failed to create user program"
                (PgError "user_programs_program_id_fkey")))
  else
    let row := UserProgram.mk (user_programs_id_seq db) (UserProgram.UserID userProgram)
                 (UserProgram.ProgramID userProgram) (UserProgram.StartDate userProgram)
                 (UserProgram.IsActive userProgram) now in
    (with_user_programs (user_programs db ++ [row]) (user_programs_id_seq db + 1) db,
     UserProgram.set_ID (user_programs_id_seq db) userProgram, None).

(** [SELECT ... FROM users WHERE id = $1 AND deleted_at IS NULL]. *)
Definition GetUserByID (db : DB) (id : string) : option User.t * option error :=
  match filter (λ r, User.ID r.1 = id ∧ r.2 = false) (users db) with
  | r :: _ => (Some r.1, None)
  | [] => (None, Some (wrap_error "failed to get user by ID" pgx_ErrNoRows))
  end.

(** The row written by [UPDATE users SET email = $2, name = $3, age = $4,
    sex = $5, height = $6, weight = $7, activity_level = $8, goal = $9,
    program_id = $10, weekly_budget = $11, updated_at = $12]:
    [password_hash] and [created_at] keep their stored values. *)
Definition updated_row (now : time) (user stored : User.t) : User.t :=
  User.mk (User.ID stored) (User.Email user) (User.PasswordHash stored)
          (User.Name user) (User.Age user) (User.Sex user) (User.Height user)
          (User.Weight user) (User.ActivityLevel user) (User.Goal user)
          (User.ProgramID user) (User.WeeklyBudget user)
          (User.CreatedAt stored) now.

(** [UpdateUser]: the UPDATE above [WHERE id = $1 AND deleted_at IS
    NULL], then the test of [RowsAffected]. *)
Definition UpdateUser (db : DB) (now : time) (user : User.t) : DB * option error :=
  let hit := λ r : User.t * bool, User.ID r.1 = User.ID user ∧ r.2 = false in
  if (length (filter hit (users db)) =? 0)%nat
  then (db, Some (fmt_Errorf "user not found or already deleted"))
  else if negb (users_check user)
  then (db, Some (wrap_error "failed to update user" (PgError "users_check")))
  else
    (with_users (map (λ r, if decide (hit r) then (updated_row now user r.1, r.2) else r)
                     (users db)) db,
     None).

(** [SELECT ... FROM users WHERE email = $1 AND deleted_at IS NULL]. *)
Definition GetUserByEmail (db : DB) (email : string) : option User.t * option error :=
  match filter (λ r, User.Email r.1 = email ∧ r.2 = false) (users db) with
  | r :: _ => (Some r.1, None)
  | [] => (None, Some (wrap_error "failed to get user by email" pgx_ErrNoRows))
  end.

(** [DeleteUser]: [UPDATE users SET deleted_at = $2 WHERE id = $1 AND
    deleted_at IS NULL], then the test of [RowsAffected]. The row stays
    in the table. *)
Definition DeleteUser (db : DB) (id : string) : DB * option error :=
  let hit := λ r : User.t * bool, User.ID r.1 = id ∧ r.2 = false in
  if (length (filter hit (users db)) =? 0)%nat
  then (db, Some (fmt_Errorf "user not found or already deleted"))
  else (with_users (map (λ r, if decide (hit r) then (r.1, true) else r) (users db)) db,
        None).

(** The row written by [UPDATE users SET password_hash = $2,
    updated_at = $3]. *)
Definition password_row (now : time) (passwordHash : string) (stored : User.t) : User.t :=
  User.mk (User.ID stored) (User.Email stored) passwordHash
          (User.Name stored) (User.Age stored) (User.Sex stored) (User.Height stored)
          (User.Weight stored) (User.ActivityLevel stored) (User.Goal stored)
          (User.ProgramID stored) (User.WeeklyBudget stored)
          (User.CreatedAt stored) now.

(** [UpdateUserPassword]: the UPDATE above [WHERE id = $1 AND deleted_at
    IS NULL], then the test of [RowsAffected]. *)
Definition UpdateUserPassword (db : DB) (now : time) (userID passwordHash : string)
  : DB * option error :=
  let hit := λ r : User.t * bool, User.ID r.1 = userID ∧ r.2 = false in
  if (length (filter hit (users db)) =? 0)%nat
  then (db, Some (fmt_Errorf "user not found or already deleted"))
  else
    (with_users (map (λ r, if decide (hit r) then (password_row now passwordHash r.1, r.2)
                           else r)
                     (users db)) db,
     None).
End UserRepository.

(** ** The user service (user_service.go) *)

(** The dynamic values of a [map[string]interface{}]. *)
Inductive any : Type :=
| Nil
| Bool (b : bool)
| Int (n : Z)
| Float64 (f : float64)
| Str (s : string)
| Composite.   (* a slice or a map, as JSON arrays and objects decode *)

(** [strings.TrimSpace], on the white space of ASCII. *)
Definition isSpace (c : ascii) : bool :=
  bool_decide (c ∈ [" "; "009"; "010"; "011"; "012"; "013"]%char).

Fixpoint trimLeft (l : list ascii) : list ascii :=
  match l with
  | c :: l' => if isSpace c then trimLeft l' else l
  | [] => []
  end.

Definition TrimSpace (s : string) : string :=
  string_of_list_ascii
    (rev (trimLeft (rev (trimLeft (list_ascii_of_string s))))).

Module UserService.
Import UserRepository.

Definition validGoals : gmap string bool :=
  {[ "weight_loss" := true; "muscle_gain" := true; "maintenance" := true;
     "endurance" := true ]}.

Definition validActivityLevels : gmap string bool :=
  {[ "sedentary" := true; "lightly_active" := true; "moderately_active" := true;
     "very_active" := true; "extra_active" := true ]}.

(** The body of the loop of [validateAndApplyProfileUpdates]: the
    [switch key] with its type assertions. *)
Definition applyUpdate (user : User.t) (entry : string * any) : User.t :=
  let '(key, value) := entry in
  if String.eqb key "weight" then
    match value with
    | Float64 weight =>
        if (weight >=? F 20)%f && (weight <=? F 500)%f
        then User.set_Weight weight user else user
    | _ => user
    end
  else if String.eqb key "height" then
    match value with
    | Float64 height =>
        if (height >=? F 30)%f && (height <=? F 250)%f
        then User.set_Height height user else user
    | _ => user
    end
  else if String.eqb key "age" then
    match value with
    | Int age => if (age >=? 13) && (age <=? 120) then User.set_Age age user else user
    | _ => user
    end
  else if String.eqb key "goal" then
    match value with
    | Str goal =>
        if default false (validGoals !! goal) then User.set_Goal goal user else user
    | _ => user
    end
  else if String.eqb key "program_id" then
    match value with
    | Int program_id =>
        if program_id >? 0 then User.set_ProgramID program_id user else user
    | _ => user
    end
  else if String.eqb key "activity_level" then
    match value with
    | Str activityLevel =>
        if default false (validActivityLevels !! activityLevel)
        then User.set_ActivityLevel activityLevel user else user
    | _ => user
    end
  else if String.eqb key "weekly_budget" then
    match value with
    | Float64 budget =>
        if (budget >=? F 0)%f then User.set_WeeklyBudget budget user else user
    | _ => user
    end
  else if String.eqb key "name" then
    match value with
    | Str name =>
        if negb (String.eqb (TrimSpace name) "")
        then User.set_Name (TrimSpace name) user else user
    | _ => user
    end
  else user.

(** [validateAndApplyProfileUpdates]: [for key, value := range updates]
    visits the entries of the map in an order that Go leaves open;
    [entries] is the order of one run. The result is always [nil]. *)
Definition validateAndApplyProfileUpdates_in (entries : list (string * any))
    (user : User.t) : User.t * option error :=
  (foldl applyUpdate user entries, None).

Definition validateAndApplyProfileUpdates (user : User.t) (updates : gmap string any)
  : User.t * option error :=
  validateAndApplyProfileUpdates_in (map_to_list updates) user.

(** [UpdateUserProfile]. *)
Definition UpdateUserProfile (db : DB) (now : time) (userID : string)
    (updates : gmap string any) : DB * option User.t * option error :=
  match GetUserByID db userID with
  | (_, Some err) => (db, None, Some (wrap_error "user not found" err))
  | (None, None) => (db, None, None) (* never returned by the repository *)
  | (Some user, None) =>
      match validateAndApplyProfileUpdates user updates with
      | (_, Some err) => (db, None, Some err)
      | (user, None) =>
          match UpdateUser db now user with
          | (db, Some err) =>
              (db, None, Some (wrap_error "failed to update user profile" err))
          | (db, None) => (db, Some (User.set_PasswordHash "" user), None)
          end
      end
  end.
End UserService.

(** The other methods of [userService] that the handlers below call. *)
Module userService.
(** [GetUserByID], [GetUserByEmail] and [UpdateUserPassword]: the
    repository call, the error wrapped once more by the first two. *)
Definition GetUserByID (db : DB) (userID : string) : option User.t * option error :=
  match UserRepository.GetUserByID db userID with
  | (_, Some err) => (None, Some (wrap_error "failed to get user" err))
  | (user, None) => (user, None)
  end.

Definition GetUserByEmail (db : DB) (email : string) : option User.t * option error :=
  match UserRepository.GetUserByEmail db email with
  | (_, Some err) => (None, Some (wrap_error "failed to get user by email" err))
  | (user, None) => (user, None)
  end.

Definition UpdateUserPassword (db : DB) (now : time) (userID passwordHash : string)
  : DB * option error :=
  UserRepository.UpdateUserPassword db now userID passwordHash.
End userService.

(** ** Passwords and tokens (internal/api/middleware/auth.go) *)

(** The claims of a token. *)
Module Claims.
Record t : Type := mk {
  UserID : string;
  Email : string;
  ExpiresAt : time;
  IssuedAt : time;
  NotBefore : time;
  Issuer : string;
  Subject : string
}.
End Claims.

(** The library functions behind the middleware: bcrypt and the JWT
    package. Nothing is assumed about them. [bcrypt_GenerateFromPassword]
    takes the random salt that the library draws as its first argument;
    [jwt_ParseWithClaims] returns the claims, the flag [token.Valid] and
    the error. *)
Class Libraries : Type := {
  bcrypt_GenerateFromPassword : string → string → Z → string * option error;
  bcrypt_CompareHashAndPassword : string → string → option error;
  jwt_SignedString : Claims.t → string * option error;
  jwt_ParseWithClaims : time → string → Claims.t * bool * option error
}.

(** Times are counted in nanoseconds, the unit of [time.Duration]. *)
Definition time_Hour : Z := 3600000000000.

(** [strings.TrimPrefix]. *)
Definition strings_TrimPrefix (s prefix : string) : string :=
  if String.prefix prefix s
  then String.substring (String.length prefix) (String.length s - String.length prefix) s
  else s.

(** What a handler does with the request: it answers with a status and
    a JSON body, or hands the request on. *)
Inductive response : Type :=
| JSON_error (status : Z) (error : string)
| JSON_message (status : Z) (message : string)
| JSON_AuthResponse (status : Z) (Token : string) (ExpiresAt : time) (User : User.t).

Inductive middleware_result : Type :=
| Abort (answer : response)
| Next (userID : string).

Module middleware.
Section libraries.
Context `{Libraries}.

(** [GenerateJWT]. *)
Definition GenerateJWT (now : time) (userID email : string) : string * option error :=
  let expirationTime := now + 24 * time_Hour * 7 in
  let claims := Claims.mk userID email expirationTime now now "fitness-app" userID in
  jwt_SignedString claims.

(** [ValidateJWT]. *)
Definition ValidateJWT (now : time) (tokenString : string)
  : option Claims.t * option error :=
  match jwt_ParseWithClaims now tokenString with
  | (_, _, Some err) => (None, Some err)
  | (claims, valid, None) =>
      if negb valid then (None, Some (fmt_Errorf "invalid token"))
      else (Some claims, None)
  end.

(** [HashPassword]; [bcrypt.DefaultCost] is 10. *)
Definition HashPassword (salt password : string) : string * option error :=
  match bcrypt_GenerateFromPassword salt password 10 with
  | (_, Some err) => (EmptyString, Some (wrap_error "failed to hash password" err))
  | (bytes, None) => (bytes, None)
  end.

(** [CheckPassword]. *)
Definition CheckPassword (password hash : string) : option error :=
  bcrypt_CompareHashAndPassword hash password.

(** [AuthMiddleware] on the value of the header "Authorization" (the
    empty string when the header is absent). *)
Definition AuthMiddleware (now : time) (authHeader : string) : middleware_result :=
  if String.eqb authHeader EmptyString
  then Abort (JSON_error 401 "Authorization header required")
  else
    let tokenString := strings_TrimPrefix authHeader "Bearer " in
    if String.eqb tokenString authHeader
    then Abort (JSON_error 401 "Authorization header must start with Bearer")
    else
      match ValidateJWT now tokenString with
      | (_, Some err) => Abort (JSON_error 401 ("Invalid token: " ++ Error err))
      | (None, None) => Abort (JSON_error 500 EmptyString) (* never returned *)
      | (Some claims, None) => Next (Claims.UserID claims)
      end.
End libraries.
End middleware.

(** ** Registration (the handler [Register]) *)

Module AuthHandler.
(** The two writes of [Register]: the user, then an active UserProgram of
    that user on the program of the request. (The lookup by email before
    them writes nothing and is subsumed by the UNIQUE constraint; the
    hashing of the password and the token do not touch the tables.) *)
Definition Register (db : DB) (now : time) (uuid : string) (user : User.t)
  : DB * option error :=
  match UserRepository.CreateUser db now uuid user with
  | (db, _, Some err) => (db, Some err)
  | (db, user, None) =>
      let userProgram := UserProgram.mk 0 (User.ID user) (User.ProgramID user) now true 0 in
      let '(db, _, err) := UserRepository.CreateUserProgram db now userProgram in
      (db, err)
  end.

(** [Login], from the point where the body of the request has been
    bound to [LoginRequest]. *)
Definition Login `{Libraries} (db : DB) (now : time) (Email Password : string)
  : response :=
  match userService.GetUserByEmail db Email with
  | (_, Some err) => JSON_error 401 "Invalid email or password"
  | (None, None) => JSON_error 500 EmptyString (* never returned by the service *)
  | (Some user, None) =>
      match middleware.CheckPassword Password (User.PasswordHash user) with
      | Some err => JSON_error 401 "Invalid email or password"
      | None =>
          match middleware.GenerateJWT now (User.ID user) (User.Email user) with
          | (_, Some err) => JSON_error 500 "Failed to generate token"
          | (token, None) =>
              let expiresAt := now + 24 * time_Hour * 7 in
              let user := User.set_PasswordHash EmptyString user in
              JSON_AuthResponse 200 token expiresAt user
          end
      end
  end.
End AuthHandler.

(** ** The user handler (user_handler.go) *)

Module UserHandler.
(** [UpdatePassword], from the point where the body of the request has
    been bound; [userID] is the value that [AuthMiddleware] has put in
    the context, [salt] the random salt of the new hash. *)
Definition UpdatePassword `{Libraries} (db : DB) (now : time) (salt userID : string)
    (OldPassword NewPassword : string) : DB * response :=
  match userService.GetUserByID db userID with
  | (_, Some err) => (db, JSON_error 500 "User not found")
  | (None, None) => (db, JSON_error 500 EmptyString) (* never returned by the service *)
  | (Some user, None) =>
      match middleware.CheckPassword OldPassword (User.PasswordHash user) with
      | Some err => (db, JSON_error 401 "Invalid old password")
      | None =>
          match middleware.HashPassword salt NewPassword with
          | (_, Some err) => (db, JSON_error 500 "Failed to process password")
          | (hashedPassword, None) =>
              match userService.UpdateUserPassword db now userID hashedPassword with
              | (db, Some err) => (db, JSON_error 500 "Failed to update password")
              | (db, None) => (db, JSON_message 200 "Password updated successfully")
              end
          end
      end
  end.
End UserHandler.

(** ** The workout service: the plan of sessions *)

Module Exercise.
Record t : Type := mk {
  ID : string;
  SessionID : string;
  Name : string;
  Sets : Z;
  Reps : Z;
  Weight : float64;
  Completed : bool;
  CreatedAt : time
}.
End Exercise.

Module Session.
Record t : Type := mk {
  ID : string;
  WorkoutID : string;
  Day : Z;
  Completed : bool;
  CreatedAt : time;
  UpdatedAt : time;
  Exercises : list Exercise.t
}.
End Session.

Module WorkoutService.
(** The switch of [generateWorkoutSessions]. *)
Definition sessionsPerWeek (workoutType : string) : Z :=
  if String.eqb workoutType "hypertrophy" then 4
  else if String.eqb workoutType "strength" then 3
  else if String.eqb workoutType "endurance" then 5
  else if String.eqb workoutType "powerlifting" then 3
  else if String.eqb workoutType "cardio" then 5
  else if String.eqb workoutType "flexibility" then 6
  else 3.

(** [generateWorkoutSessions]: [for i := 1; i <= totalSessions; i++]
    appends a session of day [(i-1)%7 + 1]; [%] is the remainder of the
    truncated division. (The loop does not end when [totalSessions] is
    the greatest int; the only caller passes a duration from 1 to 52.) *)
Definition generateWorkoutSessions (workoutType : string) (duration : Z) (user : User.t)
  : list Session.t :=
  let totalSessions := wrap64 (duration * sessionsPerWeek workoutType) in
  map (λ i, Session.mk EmptyString EmptyString (Z.rem (i - 1) 7 + 1) false 0 0 [])
      (seqZ 1 totalSessions).
End WorkoutService.

(** ** The formulas of the specification *)



(** The rows of [user_programs] that are active for a user. *)
Definition active_programs (db : DB) (userID : string) : list UserProgram.t :=
  filter (λ up, UserProgram.UserID up = userID ∧ UserProgram.IsActive up = true)
         (user_programs db).

(** The invariant of the data model: at most one active program per user. *)
Definition single_active (db : DB) : Prop :=
  ∀ userID, (length (active_programs db userID) ≤ 1)%nat.

(** The rows of [user_programs] after [UPDATE user_programs SET is_active
    = false WHERE id = $1]. *)
Definition deactivated (id : Z) (rows : list UserProgram.t) : list UserProgram.t :=
  map (λ r, if decide (UserProgram.ID r = id)
            then UserProgram.set_IsActive false r else r) rows.

(** The foreign key of [user_programs] on [users]. *)
Definition user_programs_fk (db : DB) : Prop :=
  ∀ up, up ∈ user_programs db →
    ∃ r, r ∈ users db ∧ User.ID r.1 = UserProgram.UserID up.

(** The databases that the modelled entry points produce from one
    without enrolments. *)
Inductive reachable : DB → Prop :=
| reachable_empty (db : DB) :
    user_programs db = [] → reachable db
| reachable_Register (db : DB) (now : time) (uuid : string) (user : User.t) :
    reachable db → reachable (AuthHandler.Register db now uuid user).1
| reachable_AssignProgramToUser (db : DB) (now : time) (userID : string) (programID : Z) :
    reachable db →
    reachable (ProgramService.AssignProgramToUser db now userID programID).1
| reachable_UpdateUserProfile (db : DB) (now : time) (userID : string)
    (updates : gmap string any) :
    reachable db → reachable (UserService.UpdateUserProfile db now userID updates).1.1
| reachable_CompleteWorkoutSession (db : DB) (now : time) (sessionID : Z)
    (exercises : list ExerciseLogRequest.t) :
    reachable db →
    reachable (ProgramService.CompleteWorkoutSession db now sessionID exercises).1.

(** A database for the examples: one user on program 1, two programs. *)
Definition example_user : User.t :=
  User.mk "u1" "jo@example.com" "hash" "Jo" 30 "male" (F 180) (F 80)
          "sedentary" "maintenance" 1 (F 0) 0 0.

Definition example_db : DB :=
  mkDB [(example_user, false);
        (User.mk "u2" "al@example.com" "hash" "Al" 41 "female" (F 165) (F 60)
                 "very_active" "endurance" 1 (F 0) 0 0, false)]
       [Program.mk 1 "A" "" "strength" 4 0; Program.mk 2 "B" "" "strength" 8 0]
       [ProgramWorkout.mk 1 1 "Push" 1 "" 0]
       [ProgramWorkoutExercise.mk 1 1 1 3 8 2 (F 0) 1 "";
        ProgramWorkoutExercise.mk 2 1 6 3 8 2 (F 40) 2 ""]
       [UserProgram.mk 1 "u1" 1 0 true 0]
       [WorkoutSession.mk 1 1 1 10 "" 10]
       [WorkoutExerciseLog.mk 1 1 1 [8; 8; 8] [4; 4; 4] 10]
       2 2.

(** Stand-ins for the libraries, for the examples: the hash of a password
    is the password after the letter h, a token is the user id after
    the letter t. *)
Definition example_libraries : Libraries := {|
  bcrypt_GenerateFromPassword := λ salt password cost, (String "h" password, None);
  bcrypt_CompareHashAndPassword := λ hash password,
    if String.eqb hash (String "h" password) then None
    else Some (fmt_Errorf "hashedPassword is not the hash of the given password");
  jwt_SignedString := λ claims, (String "t" (Claims.UserID claims), None);
  jwt_ParseWithClaims := λ now tokenString,
    match tokenString with
    | String "t" userID =>
        (Claims.mk userID EmptyString 0 0 0 EmptyString userID, true, None)
    | _ => (Claims.mk EmptyString EmptyString 0 0 0 EmptyString EmptyString, false,
            Some (fmt_Errorf "token is malformed"))
    end
|}.



(** The template rows visited by the two loops of
    [CalculateInitialWeights], in the order of the visit. *)
Definition visited (db : DB) (programID : Z) : list ProgramWorkoutExercise.t :=
  ProgramRepository.GetProgramWorkouts db programID
    ≫= λ workout,
         ProgramRepository.GetProgramWorkoutExercises db (ProgramWorkout.ID workout).


(** The equal-length invariant of a stored log. *)
Definition same_number_of_sets (log : WorkoutExerciseLog.t) : Prop :=
  length (WorkoutExerciseLog.ActualReps log) = length (WorkoutExerciseLog.ActualRIR log).

(** A stored row holds what a request of a session asked to store. *)
Definition stores (sessionID : Z) (row : WorkoutExerciseLog.t)
    (request : ExerciseLogRequest.t) : Prop :=
  WorkoutExerciseLog.WorkoutID row = sessionID
  ∧ WorkoutExerciseLog.ProgramWorkoutExerciseID row
    = ExerciseLogRequest.ProgramWorkoutExerciseID request
  ∧ WorkoutExerciseLog.ActualReps row = ExerciseLogRequest.ActualReps request
  ∧ WorkoutExerciseLog.ActualRIR row = ExerciseLogRequest.ActualRIR request.

(** The sum of a list of integers. *)
Definition Zsum (l : list Z) : Z := foldr Z.add 0 l.

(** *** Profile updates, field by field

    What is accepted for each field: a value of the right dynamic type
    inside the closed range or set of the field (§4.4 of the specification
    for age, height, weight, activity level and goal; a positive program
    id, a budget that is not negative and a name that is not blank, for
    which §4.4 gives no range). *)
Definition accept_weight (value : any) : option float64 :=
  match value with
  | Float64 w => if (F 20 <=? w)%f && (w <=? F 500)%f then Some w else None
  | _ => None
  end.

Definition accept_height (value : any) : option float64 :=
  match value with
  | Float64 h => if (F 30 <=? h)%f && (h <=? F 250)%f then Some h else None
  | _ => None
  end.

Definition accept_age (value : any) : option Z :=
  match value with
  | Int a => if bool_decide (13 ≤ a ≤ 120) then Some a else None
  | _ => None
  end.

Definition accept_goal (value : any) : option string :=
  match value with
  | Str g =>
      if bool_decide (g ∈ ["weight_loss"; "muscle_gain"; "maintenance"; "endurance"])
      then Some g else None
  | _ => None
  end.

Definition accept_program_id (value : any) : option Z :=
  match value with
  | Int p => if bool_decide (0 < p) then Some p else None
  | _ => None
  end.

Definition accept_activity_level (value : any) : option string :=
  match value with
  | Str a =>
      if bool_decide (a ∈ ["sedentary"; "lightly_active"; "moderately_active";
                           "very_active"; "extra_active"])
      then Some a else None
  | _ => None
  end.

Definition accept_weekly_budget (value : any) : option float64 :=
  match value with
  | Float64 b => if (F 0 <=? b)%f then Some b else None
  | _ => None
  end.

Definition accept_name (value : any) : option string :=
  match value with
  | Str n => if bool_decide (TrimSpace n = "") then None else Some (TrimSpace n)
  | _ => None
  end.

(** A field after the update: the accepted value when the map presents
    one under the key of the field, the stored value otherwise. *)
Definition field_update {A : Type} (updates : gmap string any) (key : string)
    (accept : any → option A) (stored : A) : A :=
  match updates !! key with
  | Some value => default stored (accept value)
  | None => stored
  end.

Definition updated_profile (user : User.t) (updates : gmap string any) : User.t :=
  User.mk (User.ID user) (User.Email user) (User.PasswordHash user)
    (field_update updates "name" accept_name (User.Name user))
    (field_update updates "age" accept_age (User.Age user))
    (User.Sex user)
    (field_update updates "height" accept_height (User.Height user))
    (field_update updates "weight" accept_weight (User.Weight user))
    (field_update updates "activity_level" accept_activity_level (User.ActivityLevel user))
    (field_update updates "goal" accept_goal (User.Goal user))
    (field_update updates "program_id" accept_program_id (User.ProgramID user))
    (field_update updates "weekly_budget" accept_weekly_budget (User.WeeklyBudget user))
    (User.CreatedAt user) (User.UpdatedAt user).

(** * Properties *)

(** ** The tiered adjustment *)

Lemma tier_multiplier_Qeq (d d' : Q) : (d == d')%Q → tier_multiplier d = tier_multiplier d'.
Proof.
  intros Hd. unfold tier_multiplier.
  assert (Hb : ∀ x y x' y', (x == x')%Q → (y == y')%Q → Qle_bool x y = Qle_bool x' y').
  { intros x y x' y' Hx Hy. destruct (Qle_bool x y) eqn:E1, (Qle_bool x' y') eqn:E2; try done.
    - apply Qle_bool_iff in E1. rewrite Hx, Hy in E1. apply Qle_bool_iff in E1. congruence.
    - apply Qle_bool_iff in E2. rewrite <- Hx, <- Hy in E2. apply Qle_bool_iff in E2. congruence. }
  rewrite (Hb 2%Q d 2%Q d'), (Hb d (-2)%Q d' (-2)%Q), (Hb 1%Q d 1%Q d'),
    (Hb d (-1)%Q d' (-1)%Q); done.
Qed.

(** On finite arguments the switch of [calculateWeightAdjustment] is the
    tier table read at [targetRIR - actualRIR]. *)
Lemma calculateWeightAdjustment_finite (actual target : Q) :
  feq (calculateWeightAdjustment (F actual) (F target))
      (F (tier_multiplier (target - actual))).
Proof.
  unfold calculateWeightAdjustment, tier_multiplier, fsub, fadd, fneg, fge, fle, Qminus.
  repeat match goal with |- context [Qle_bool ?a ?b] => destruct (Qle_bool a b) end;
    simpl; reflexivity.
Qed.

Lemma tier_multiplier_range (d : Q) :
  tier_multiplier d ∈ [0.90%Q; 0.95%Q; 1.00%Q; 1.05%Q; 1.10%Q].
Proof.
  unfold tier_multiplier.
  repeat match goal with |- context [Qle_bool ?a ?b] => destruct (Qle_bool a b) end;
    set_solver.
Qed.

Lemma Qle_bool_false (x y : Q) : Qle_bool x y = false → (y < x)%Q.
Proof.
  intros H. apply Qnot_le_lt. intros Hle. apply Qle_bool_iff in Hle. congruence.
Qed.

(** The tiers as intervals of the difference: first match wins. *)
Lemma tier_multiplier_intervals (d : Q) :
  ((2 <= d)%Q → tier_multiplier d = 0.90%Q)
  ∧ ((d <= -2)%Q → tier_multiplier d = 1.10%Q)
  ∧ ((1 <= d < 2)%Q → tier_multiplier d = 0.95%Q)
  ∧ ((-2 < d <= -1)%Q → tier_multiplier d = 1.05%Q)
  ∧ ((-1 < d < 1)%Q → tier_multiplier d = 1.00%Q).
Proof.
  unfold tier_multiplier.
  destruct (Qle_bool 2 d) eqn:E1; [apply Qle_bool_iff in E1 | apply Qle_bool_false in E1];
  (destruct (Qle_bool d (-2)) eqn:E2; [apply Qle_bool_iff in E2 | apply Qle_bool_false in E2]);
  (destruct (Qle_bool 1 d) eqn:E3; [apply Qle_bool_iff in E3 | apply Qle_bool_false in E3]);
  (destruct (Qle_bool d (-1)) eqn:E4; [apply Qle_bool_iff in E4 | apply Qle_bool_false in E4]);
  repeat split; intros; try reflexivity; exfalso; lra.
Qed.

(** C1. For every real-valued actual and target RIR the multiplier of
    [calculateWeightAdjustment] is a function of the difference
    target - actual alone: the one the tier table gives, tiers tried in
    the order >= 2, <= -2, >= 1, <= -1, otherwise, so that each
    difference falls in exactly one of five intervals; it is one of 0.90,
    0.95, 1.00, 1.05, 1.10; and target 2 with actual RIR [4,4,4] has
    average 4, difference -2 and multiplier 1.10. *)
Theorem calculateWeightAdjustment_tiers :
  (∀ actual target : Q,
     let m := calculateWeightAdjustment (F actual) (F target) in
     let d := (target - actual)%Q in
     feq m (F (tier_multiplier d))
     ∧ tier_multiplier d ∈ [0.90%Q; 0.95%Q; 1.00%Q; 1.05%Q; 1.10%Q]
     ∧ ((2 <= d)%Q → feq m (F 0.90))
     ∧ ((d <= -2)%Q → feq m (F 1.10))
     ∧ ((1 <= d < 2)%Q → feq m (F 0.95))
     ∧ ((-2 < d <= -1)%Q → feq m (F 1.05))
     ∧ ((-1 < d < 1)%Q → feq m (F 1.00)))
  ∧ feq (calculateAverageRIR [4; 4; 4]) (F 4)
  ∧ feq (float64_of_int 2 - calculateAverageRIR [4; 4; 4])%f (F (-2))
  ∧ feq (calculateWeightAdjustment (calculateAverageRIR [4; 4; 4]) (float64_of_int 2))
        (F 1.10).
Proof.
  split; [|split; [|split]].
  - intros actual target m d.
    pose proof (calculateWeightAdjustment_finite actual target) as Hm.
    fold m d in Hm.
    destruct (tier_multiplier_intervals d) as (H1 & H2 & H3 & H4 & H5).
    split; [exact Hm|]. split; [apply tier_multiplier_range|].
    repeat split; intros Hd;
      [rewrite <- (H1 Hd) | rewrite <- (H2 Hd) | rewrite <- (H3 Hd)
      | rewrite <- (H4 Hd) | rewrite <- (H5 Hd)]; exact Hm.
  - vm_compute. reflexivity.
  - vm_compute. reflexivity.
  - vm_compute. reflexivity.
Qed.

(** The scenario of C1, through the general statement: average 4 is
    12/3, and 2 - 12/3 <= -2. *)
Lemma calculateWeightAdjustment_tiers_witness :
  feq (calculateWeightAdjustment (F (12 # 3)) (F 2)) (F 1.10).
Proof.
  apply (proj1 calculateWeightAdjustment_tiers (12 # 3)%Q 2%Q).
  vm_compute. discriminate.
Defined.

(** ** The base-strength estimate *)

Lemma wrap64_small (z : Z) : is_int64 z → wrap64 z = z.
Proof.
  unfold is_int64, wrap64. intros Hz.
  rewrite Z.mod_small by lia. lia.
Qed.



(** ** The exercise modifier *)

Lemma getExerciseModifier_table :
  ProgramService.getExerciseModifier 1 = F 1.0
  ∧ ProgramService.getExerciseModifier 2 = F 0.8
  ∧ ProgramService.getExerciseModifier 3 = F 1.2
  ∧ ProgramService.getExerciseModifier 4 = F 1.1
  ∧ ProgramService.getExerciseModifier 5 = F 0.5.
Proof. repeat split; reflexivity. Qed.

(** Outside the table the index expression yields the zero value. *)
Lemma getExerciseModifier_outside_table (exerciseID : Z) :
  ¬ (1 ≤ exerciseID ≤ 5) → ProgramService.getExerciseModifier exerciseID = F 0.
Proof.
  intros Hid. unfold ProgramService.getExerciseModifier, ProgramService.modifiers.
  rewrite !lookup_insert_ne by lia.
  rewrite lookup_singleton_ne by lia. reflexivity.
Qed.

(** With a zero modifier the computed branch of
    [CalculateInitialWeights] suggests the weight 0, whatever the user. *)
Lemma suggestedWeight_outside_table (user : User.t) (exercise : ProgramWorkoutExercise.t) (b : Q) :
  ProgramService.calculateBaseStrength user = F b →
  ProgramWorkoutExercise.PrescribedWeight exercise = F 0 →
  ¬ (1 ≤ ProgramWorkoutExercise.ExerciseID exercise ≤ 5) →
  feq (ProgramService.suggestedWeight user exercise) (F 0).
Proof.
  intros Hb Hp Hid. unfold ProgramService.suggestedWeight.
  rewrite Hp, Hb, (getExerciseModifier_outside_table _ Hid). simpl.
  assert (Hz : Qround_half_away (b * 0 / 2.5) = 0).
  { unfold Qround_half_away.
    assert (Hq : (b * 0 / 2.5 == 0)%Q) by (field).
    assert (Hle : Qle_bool 0 (b * 0 / 2.5) = true) by (apply Qle_bool_iff; lra).
    rewrite Hle.
    assert (Hf : (b * 0 / 2.5 + (1 # 2) == 1 # 2)%Q) by lra.
    rewrite (Qfloor_comp _ _ Hf). reflexivity. }
  rewrite Hz. vm_compute. reflexivity.
Qed.

(** C3 (the code departs from it). The sixth exercise of the table
    [exercises] has no entry in the modifier table: its modifier is 0,
    and the weight suggested to an 80 kg, 30-year-old male user is 0. *)
Theorem getExerciseModifier_unknown_is_zero :
  ProgramService.getExerciseModifier 6 = F 0
  ∧ feq (ProgramService.suggestedWeight
           (User.mk "u1" "jo@example.com" "" "Jo" 30 "male" (F 180) (F 80)
                    "sedentary" "maintenance" 1 (F 0) 0 0)
           (ProgramWorkoutExercise.mk 1 1 6 3 8 2 (F 0) 1 ""))
        (F 0).
Proof. split; vm_compute; reflexivity. Qed.

(** ** Program assignment *)

Section assignment.
Import ProgramRepository ProgramService.

Implicit Types (db : DB) (up : UserProgram.t).

Lemma GetUserActiveProgram_active db userID :
  GetUserActiveProgram db userID =
    match active_programs db userID with
    | up :: _ => (Some up, None)
    | [] => (None, Some pgx_ErrNoRows)
    end.
Proof. reflexivity. Qed.

(** The UPDATE leaves no active row with the id it was given, and
    activates nothing. *)
Lemma deactivate_filter (P : UserProgram.t → Prop) `{∀ up, Decision (P up)}
    (id : Z) (l : list UserProgram.t) :
  (∀ up, P up → UserProgram.IsActive up = true) →
  filter P (map (λ up, if decide (UserProgram.ID up = id)
                       then UserProgram.set_IsActive false up else up) l)
  = filter (λ up, UserProgram.ID up ≠ id) (filter P l).
Proof.
  intros Hact. induction l as [|up l IH]; [done|].
  cbn [map]. rewrite (filter_cons P), (filter_cons P up), IH.
  destruct (decide (UserProgram.ID up = id)) as [Hid|Hid].
  - rewrite decide_False by (intros HP; apply Hact in HP; destruct up; done).
    destruct (decide (P up)); [|done].
    rewrite filter_cons_False by tauto. done.
  - destruct (decide (P up)); [|done].
    rewrite filter_cons_True by tauto. done.
Qed.

Lemma UpdateUserProgram_deactivate db up db1 :
  UpdateUserProgram db (UserProgram.set_IsActive false up) = (db1, None) →
  ∀ userID,
    active_programs db1 userID
    = filter (λ r, UserProgram.ID r ≠ UserProgram.ID up) (active_programs db userID).
Proof.
  unfold UpdateUserProgram. intros Hupd userID.
  destruct (_ =? _)%nat; [done|]. injection Hupd as <-.
  unfold active_programs. cbn.
  apply (deactivate_filter (λ r, UserProgram.UserID r = userID ∧ UserProgram.IsActive r = true)).
  tauto.
Qed.

Lemma UpdateUserProgram_rows db up db1 :
  UpdateUserProgram db up = (db1, None) →
  user_programs db1
  = map (λ r, if decide (UserProgram.ID r = UserProgram.ID up)
              then UserProgram.set_IsActive (UserProgram.IsActive up) r else r)
        (user_programs db).
Proof.
  unfold UpdateUserProgram. destruct (_ =? _)%nat; [done|]. by intros [= <-].
Qed.

Lemma CreateUserProgram_ok db now up db' new :
  CreateUserProgram db now up = (db', new, None) →
  user_programs db' = user_programs db ++ [new]
  ∧ UserProgram.UserID new = UserProgram.UserID up
  ∧ UserProgram.ProgramID new = UserProgram.ProgramID up
  ∧ UserProgram.StartDate new = UserProgram.StartDate up
  ∧ UserProgram.IsActive new = UserProgram.IsActive up.
Proof.
  unfold CreateUserProgram. intros Hc.
  repeat (destruct (negb _); [done|]).
  injection Hc as <- <-. done.
Qed.

Lemma CreateUserProgram_err db now up db' new e :
  CreateUserProgram db now up = (db', new, Some e) → db' = db.
Proof.
  unfold CreateUserProgram. intros Hc.
  repeat (destruct (negb _); [by injection Hc|]). done.
Qed.

(** Without an active row the lookup error is not let through: the text
    of [pgx.ErrNoRows] is not the one the service compares with. *)
Lemma AssignProgramToUser_no_active db now userID programID :
  active_programs db userID = [] →
  AssignProgramToUser db now userID programID = (db, Some pgx_ErrNoRows).
Proof.
  intros Hnone. unfold AssignProgramToUser.
  rewrite GetUserActiveProgram_active, Hnone. reflexivity.
Qed.

(** The steps of a successful assignment. *)
Lemma AssignProgramToUser_ok db now userID programID db' :
  AssignProgramToUser db now userID programID = (db', None) →
  ∃ old rest db1 new,
    active_programs db userID = old :: rest
    ∧ UpdateUserProgram db (UserProgram.set_IsActive false old) = (db1, None)
    ∧ CreateUserProgram db1 now (UserProgram.mk 0 userID programID now true 0)
      = (db', new, None).
Proof.
  unfold AssignProgramToUser. rewrite GetUserActiveProgram_active.
  destruct (active_programs db userID) as [|old rest] eqn:Hact; [done|].
  cbn. destruct (UpdateUserProgram db _) as [db1 [e|]] eqn:Hupd; [done|].
  destruct (CreateUserProgram db1 _ _) as [[db2 new] err] eqn:Hc.
  intros [= <- ->]. by exists old, rest, db1, new.
Qed.

(** C4. When the invariant holds for the user (at most one active row)
    and [AssignProgramToUser] succeeds, the user is left with exactly
    one active row, the one just created, which carries the user, the
    program and the assignment time as start date; an active row the
    user had was made inactive by an UPDATE that completed before the
    INSERT of the new row, and between the two the user had no active
    row. *)
Theorem AssignProgramToUser_single_active db now userID programID db' :
  (length (active_programs db userID) ≤ 1)%nat →
  AssignProgramToUser db now userID programID = (db', None) →
  ∃ new,
    active_programs db' userID = [new]
    ∧ UserProgram.UserID new = userID
    ∧ UserProgram.ProgramID new = programID
    ∧ UserProgram.StartDate new = now
    ∧ UserProgram.IsActive new = true
    ∧ ∀ old, old ∈ active_programs db userID →
        ∃ db1,
          UpdateUserProgram db (UserProgram.set_IsActive false old) = (db1, None)
          ∧ active_programs db1 userID = []
          ∧ CreateUserProgram db1 now (UserProgram.mk 0 userID programID now true 0)
            = (db', new, None)
          ∧ user_programs db'
            = map (λ r, if decide (UserProgram.ID r = UserProgram.ID old)
                        then UserProgram.set_IsActive false r else r)
                  (user_programs db) ++ [new].
Proof.
  intros Hinv Hok.
  destruct (AssignProgramToUser_ok _ _ _ _ _ Hok)
    as (old & rest & db1 & new & Hact & Hupd & Hcreate).
  rewrite Hact in Hinv. destruct rest; [|cbn in Hinv; lia].
  pose proof (UpdateUserProgram_deactivate _ _ _ Hupd userID) as Hact1.
  rewrite Hact in Hact1.
  rewrite filter_cons_False, filter_nil in Hact1 by (intros ?; done).
  destruct (CreateUserProgram_ok _ _ _ _ _ Hcreate) as (Hrows & Hu & Hp & Hs & Ha).
  cbn in Hu, Hp, Hs, Ha.
  exists new. repeat split; try done.
  - unfold active_programs in *. rewrite Hrows, filter_app, Hact1.
    rewrite filter_cons_True by done. done.
  - intros old' Hold. rewrite Hact in Hold. apply list_elem_of_singleton in Hold as ->.
    exists db1. repeat split; try done.
    rewrite Hrows. f_equal. apply (UpdateUserProgram_rows _ _ _ Hupd).
Qed.

(** The example database: the user "u1", active on program 1, is
    assigned program 2 at time 77. *)
Lemma AssignProgramToUser_single_active_witness :
  ∃ new,
    active_programs (AssignProgramToUser example_db 77 "u1" 2).1 "u1" = [new]
    ∧ UserProgram.ProgramID new = 2.
Proof.
  destruct (AssignProgramToUser_single_active example_db 77 "u1" 2
              (AssignProgramToUser example_db 77 "u1" 2).1)
    as (new & Hact & _ & Hp & _).
  - vm_compute. lia.
  - vm_compute. reflexivity.
  - exists new. split; assumption.
Defined.

(** C5 (the code departs from it). The user "u2" of the example
    database exists and has no active program; assigning program 1
    returns the lookup error, whose text is "no rows in result set" and
    not "sql: no rows in result set", and nothing is created. *)
Theorem AssignProgramToUser_absent_is_error :
  active_programs example_db "u2" = []
  ∧ AssignProgramToUser example_db 77 "u2" 1 = (example_db, Some pgx_ErrNoRows)
  ∧ Error pgx_ErrNoRows = "no rows in result set"
  ∧ Error pgx_ErrNoRows ≠ "sql: no rows in result set"
  ∧ (CreateUserProgram example_db 77 (UserProgram.mk 0 "u2" 1 77 true 0)).2 = None.
Proof. repeat split; vm_compute; done. Qed.
End assignment.

(** ** Maps filled by a loop *)

Section keyed_lists.
Context {A : Type} (key : A → Z).



Lemma NoDup_fmap_eq (l : list A) (x y : A) :
  NoDup (key <$> l) → x ∈ l → y ∈ l → key x = key y → x = y.
Proof.
  induction l as [|a l IH]; intros Hnd Hx Hy Hk; [by apply elem_of_nil in Hx|].
  rewrite fmap_cons in Hnd. apply NoDup_cons in Hnd as [Ha Hnd].
  apply elem_of_cons in Hx as [->|Hx]; apply elem_of_cons in Hy as [->|Hy]; try done.
  - exfalso. apply Ha. rewrite Hk. by apply list_elem_of_fmap_2.
  - exfalso. apply Ha. rewrite <- Hk. by apply list_elem_of_fmap_2.
  - by apply IH.
Qed.
End keyed_lists.

Section fold_insert.
Context {A V : Type} (key : A → Z) (f : A → V).

(** After [for _, e := range l { m[key(e)] = f(e) }] the entry of a key
    is the one written for the last element with that key. *)
Lemma foldl_insert_lookup (l : list A) (m0 : gmap Z V) (k : Z) :
  foldl (λ m e, <[key e := f e]> m) m0 l !! k =
    match last (filter (λ e, key e = k) l) with
    | Some e => Some (f e)
    | None => m0 !! k
    end.
Proof.
  induction l as [|x l IH] using rev_ind; [done|].
  rewrite foldl_snoc, filter_app, filter_cons, filter_nil.
  destruct (decide (key x = k)) as [->|Hne].
  - rewrite last_snoc. apply lookup_insert_eq.
  - rewrite lookup_insert_ne by done. by rewrite app_nil_r.
Qed.

End fold_insert.

(** A loop nested in a loop writes what one loop over the concatenation
    writes. *)
Lemma foldl_foldl_bind {A B M : Type} (g : M → A → M) (h : B → list A)
  (l : list B) (m0 : M) :
  foldl (λ m b, foldl g m (h b)) m0 l = foldl g m0 (l ≫= h).
Proof.
  revert m0. induction l as [|b l IH]; intros m0; [done|].
  cbn. by rewrite foldl_app, IH.
Qed.


(** ** Initial weights *)

Section initial_weights.
Import ProgramRepository ProgramService.

Lemma elem_of_GetProgramWorkoutExercises (db : DB) (workoutID : Z)
    (e : ProgramWorkoutExercise.t) :
  e ∈ GetProgramWorkoutExercises db workoutID
  ↔ ProgramWorkoutExercise.ProgramWorkoutID e = workoutID
    ∧ e ∈ program_workout_exercises db.
Proof.
  unfold GetProgramWorkoutExercises.
  rewrite merge_sort_Permutation, list_elem_of_filter. done.
Qed.

Lemma CalculateInitialWeights_lookup (db : DB) (user : User.t) (programID k : Z) :
  (CalculateInitialWeights db user programID).1 !! k
  = suggestedWeight user
      <$> last (filter (λ e, ProgramWorkoutExercise.ID e = k) (visited db programID)).
Proof.
  unfold CalculateInitialWeights. cbn [fst].
  rewrite (foldl_foldl_bind
             (λ weightMap exercise,
                <[ProgramWorkoutExercise.ID exercise := suggestedWeight user exercise]>
                  weightMap)).
  rewrite foldl_insert_lookup. fold (visited db programID).
  destruct (last _); [done|]. apply lookup_empty.
Qed.



End initial_weights.

(** ** Next weights *)

Section next_weights.
Import ProgramRepository ProgramService.

(** The switch returns one of its five constants on every pair of
    float64 arguments, NaN and the infinities included. *)
Lemma calculateWeightAdjustment_cases (actualRIR targetRIR : float64) :
  calculateWeightAdjustment actualRIR targetRIR
    ∈ [F 0.9; F 1.1; F 0.95; F 1.05; F 1.0].
Proof.
  unfold calculateWeightAdjustment. cbv zeta.
  repeat match goal with |- context [if ?b then _ else _] => destruct b end;
    set_solver.
Qed.

(** From the placeholder 50 the loop can only produce 45, 47.5, 50,
    52.5 or 55. *)
Lemma nextWeight_values (exerciseLog : WorkoutExerciseLog.t)
    (programExercise : ProgramWorkoutExercise.t) :
  ∃ q, nextWeight exerciseLog programExercise = F q
       ∧ ((q == 45) ∨ (q == 47.5) ∨ (q == 50) ∨ (q == 52.5) ∨ (q == 55))%Q.
Proof.
  unfold nextWeight, calculateWeightAdjustment. cbv zeta.
  repeat match goal with |- context [if ?b then _ else _] => destruct b end;
    eexists; (split; [vm_compute; reflexivity|]); vm_compute; tauto.
Qed.




End next_weights.

(** ** Workout logging *)

Section logging.
Import ProgramRepository ProgramService.

Lemma workout_exercises_check_ok (log : WorkoutExerciseLog.t) :
  workout_exercises_check log = None →
  same_number_of_sets log
  ∧ WorkoutExerciseLog.ActualRIR log ≠ []
  ∧ Forall is_int32 (WorkoutExerciseLog.ActualRIR log).
Proof.
  unfold workout_exercises_check, same_number_of_sets. cbv zeta.
  destruct (forallb _ _) eqn:Hrange; [|done]. cbn [negb].
  destruct (Nat.eqb_spec (length (WorkoutExerciseLog.ActualReps log)) 0) as [|Hreps]; [done|].
  destruct (Nat.eqb_spec (length (WorkoutExerciseLog.ActualRIR log)) 0) as [|Hrir0]; [done|].
  destruct (Nat.eqb_spec (length (WorkoutExerciseLog.ActualReps log))
                         (length (WorkoutExerciseLog.ActualRIR log))) as [Hsame|]; [|done].
  intros _. split; [done|]. split.
  - by destruct (WorkoutExerciseLog.ActualRIR log).
  - rewrite forallb_app in Hrange. apply andb_true_iff in Hrange as [_ Hrir].
    rewrite forallb_forall in Hrir. apply Forall_forall. intros z Hz.
    apply list_elem_of_In, Hrir in Hz. unfold is_int32. lia.
Qed.

Lemma CreateWorkoutExerciseLog_ok (db : DB) (now : time) (log : WorkoutExerciseLog.t) (db' : DB) :
  CreateWorkoutExerciseLog db now log = (db', None) →
  ∃ row,
    workout_exercises db' = workout_exercises db ++ [row]
    ∧ WorkoutExerciseLog.WorkoutID row = WorkoutExerciseLog.WorkoutID log
    ∧ WorkoutExerciseLog.ProgramWorkoutExerciseID row
      = WorkoutExerciseLog.ProgramWorkoutExerciseID log
    ∧ WorkoutExerciseLog.ActualReps row = WorkoutExerciseLog.ActualReps log
    ∧ WorkoutExerciseLog.ActualRIR row = WorkoutExerciseLog.ActualRIR log
    ∧ workout_exercises_check log = None.
Proof.
  unfold CreateWorkoutExerciseLog.
  destruct (workout_exercises_check log) eqn:Hcheck; [done|].
  repeat (destruct (negb _); [done|]).
  intros [= <-]. eexists. cbn. done.
Qed.

Lemma CreateWorkoutExerciseLog_err (db : DB) (now : time) (log : WorkoutExerciseLog.t)
    (db' : DB) (e : error) :
  CreateWorkoutExerciseLog db now log = (db', Some e) → db' = db.
Proof.
  unfold CreateWorkoutExerciseLog.
  destruct (workout_exercises_check log); [by intros [= <-]|].
  repeat (destruct (negb _); [by intros [= <-]|]). done.
Qed.

(** C9. Whatever the list of requests, the rows that
    [CompleteWorkoutSession] leaves in [workout_exercises] are the stored
    rows followed by one row for each request of a prefix of the list
    (the whole list when the call returns no error), and each of these
    new rows has as many repetition counts as RIR values. *)
Theorem CompleteWorkoutSession_same_number_of_sets (db : DB) (now : time)
    (sessionID : Z) (exercises : list ExerciseLogRequest.t) :
  ∃ (n : nat) (stored : list WorkoutExerciseLog.t),
    workout_exercises (CompleteWorkoutSession db now sessionID exercises).1
    = workout_exercises db ++ stored
    ∧ Forall2 (stores sessionID) stored (take n exercises)
    ∧ Forall same_number_of_sets stored
    ∧ ((CompleteWorkoutSession db now sessionID exercises).2 = None →
       n = length exercises).
Proof.
  revert db. induction exercises as [|exercise exercises IH]; intros db.
  - exists 0%nat, []. cbn. rewrite app_nil_r. repeat split; constructor.
  - cbn [CompleteWorkoutSession].
    destruct (CreateWorkoutExerciseLog db now _) as [db1 [e|]] eqn:Hcreate.
    + apply CreateWorkoutExerciseLog_err in Hcreate as ->.
      exists 0%nat, []. cbn. rewrite app_nil_r. repeat split; try constructor; done.
    + apply CreateWorkoutExerciseLog_ok in Hcreate
        as (row & Hrows & Hw & Hk & Hreps & Hrir & Hcheck).
      cbn in Hw, Hk, Hreps, Hrir.
      destruct (IH db1) as (n & stored & Hstored & Hreq & Hlen & Hall).
      exists (S n), (row :: stored). rewrite Hstored, Hrows, <- app_assoc. cbn.
      repeat split.
      * by constructor.
      * constructor; [|done].
        apply workout_exercises_check_ok in Hcheck as [Hsame _].
        unfold same_number_of_sets in *. cbn in Hsame. congruence.
      * intros Hnone. f_equal. by apply Hall.
Qed.

(** The service itself does not compare the two arrays: a request with
    three repetition counts and two RIR values reaches the INSERT, which
    the constraint [same_number_of_sets] of the table refuses. *)
Lemma CompleteWorkoutSession_unequal_refused :
  CompleteWorkoutSession example_db 20 1 [ExerciseLogRequest.mk 1 [8; 8; 8] [2; 1]]
  = (example_db, Some (PgError "same_number_of_sets")).
Proof. vm_compute. reflexivity. Qed.

(** A session of two accepted requests. *)
Lemma CompleteWorkoutSession_accepts :
  map (λ l, (WorkoutExerciseLog.ActualReps l, WorkoutExerciseLog.ActualRIR l))
      (workout_exercises
         (CompleteWorkoutSession example_db 20 1
            [ExerciseLogRequest.mk 1 [8; 8; 8] [2; 1; 0];
             ExerciseLogRequest.mk 2 [5] [3]]).1)
  = [([8; 8; 8], [4; 4; 4]); ([8; 8; 8], [2; 1; 0]); ([5], [3])].
Proof. vm_compute. reflexivity. Qed.
End logging.

(** ** The average RIR *)

Section average.
Import ProgramRepository ProgramService.

(** On INTEGER elements the accumulation never wraps. *)
Lemma sum_loop_no_wrap (rirArray : list Z) (sum : Z) :
  Forall is_int32 rirArray →
  Z.abs sum + Z.of_nat (length rirArray) * 2 ^ 31 < 2 ^ 63 →
  foldl (λ sum rir, wrap64 (sum + rir)) sum rirArray = sum + Zsum rirArray.
Proof.
  revert sum. induction rirArray as [|rir rirArray IH]; intros sum Hall Hbound.
  - cbn. lia.
  - apply Forall_cons in Hall as [Hrir Hall]. unfold is_int32 in Hrir.
    cbn [foldl Zsum foldr length] in *.
    rewrite wrap64_small by (unfold is_int64; lia).
    rewrite IH by (try done; lia). unfold Zsum. lia.
Qed.

Lemma calculateAverageRIR_empty : calculateAverageRIR [] = NaN.
Proof. reflexivity. Qed.

(** C10 (as amended). [calculateAverageRIR] has no guard for the empty
    array: there the float64 division 0/0 yields NaN. On a non-empty
    array of INTEGER values (fewer than 2^31 of them) it returns the
    arithmetic mean: a finite q with q * length = sum. The Go functions of
    the path do not look at the array, but the INSERT that
    [CompleteWorkoutSession] issues is refused by the table for an empty
    array, so that every row the call stores has a non-empty array of
    INTEGER values, for which the mean is returned. *)
Theorem calculateAverageRIR_mean :
  (∀ rirArray : list Z,
     Forall is_int32 rirArray →
     Z.of_nat (length rirArray) < 2 ^ 31 →
     (rirArray ≠ [] →
      ∃ q, calculateAverageRIR rirArray = F q
           ∧ (q * inject_Z (Z.of_nat (length rirArray)) == inject_Z (Zsum rirArray))%Q)
     ∧ (rirArray = [] → calculateAverageRIR rirArray = NaN))
  ∧ (∀ (db : DB) (now : time) (sessionID : Z) (request : ExerciseLogRequest.t),
       ExerciseLogRequest.ActualRIR request = [] →
       ∃ e, CompleteWorkoutSession db now sessionID [request] = (db, Some e))
  ∧ (∀ (db : DB) (now : time) (log : WorkoutExerciseLog.t) (db' : DB),
       CreateWorkoutExerciseLog db now log = (db', None) →
       WorkoutExerciseLog.ActualRIR log ≠ []
       ∧ Forall is_int32 (WorkoutExerciseLog.ActualRIR log)).
Proof.
  split; [|split].
  - intros rirArray Hall Hlen. split.
    + intros Hne. unfold calculateAverageRIR. cbv zeta.
      rewrite sum_loop_no_wrap by (try done; lia). rewrite Z.add_0_l.
      unfold float64_of_int, fdiv.
      assert (Hpos : 0 < Z.of_nat (length rirArray)) by (destruct rirArray; [done|cbn; lia]).
      destruct (Qeq_bool (inject_Z (Z.of_nat (length rirArray))) 0) eqn:Hz.
      * apply Qeq_bool_iff in Hz. unfold Qeq in Hz. cbn in Hz. lia.
      * eexists. split; [reflexivity|]. field.
        intros Hq. unfold Qeq in Hq. cbn in Hq. lia.
    + intros ->. reflexivity.
  - intros db now sessionID request Hrir. cbn [CompleteWorkoutSession].
    destruct (CreateWorkoutExerciseLog db now _) as [db1 [e|]] eqn:Hcreate.
    + apply CreateWorkoutExerciseLog_err in Hcreate as ->. by exists e.
    + apply CreateWorkoutExerciseLog_ok in Hcreate as (_ & _ & _ & _ & _ & _ & Hcheck).
      apply workout_exercises_check_ok in Hcheck as (_ & Hne & _). cbn in Hne. done.
  - intros db now log db' Hcreate.
    apply CreateWorkoutExerciseLog_ok in Hcreate as (_ & _ & _ & _ & _ & _ & Hcheck).
    apply workout_exercises_check_ok in Hcheck. tauto.
Qed.

(** The array [4,4,4]: the mean is 4. *)
Lemma calculateAverageRIR_mean_witness :
  ∃ q, calculateAverageRIR [4; 4; 4] = F q ∧ (q * 3 == 12)%Q.
Proof.
  destruct (proj1 calculateAverageRIR_mean [4; 4; 4]) as [Hmean _].
  - repeat constructor; unfold is_int32; lia.
  - cbn. lia.
  - apply Hmean. discriminate.
Defined.

(** C10 as it was stated: "no validation on the path rejects an empty
    actual-RIR array". A request with an empty RIR array is refused at the
    INSERT and nothing is stored. *)
Lemma CompleteWorkoutSession_rejects_empty_rir :
  CompleteWorkoutSession example_db 20 1 [ExerciseLogRequest.mk 1 [8; 8; 8] []]
  = (example_db, Some (PgError "workout_exercises_actual_rir_check")).
Proof. vm_compute. reflexivity. Qed.

(** A row with an empty array, if the table held one, would not stop
    [CalculateNextWorkoutWeights]: the average is NaN, every comparison of
    the switch fails, and the weight stays at 50. *)
Lemma nextWeight_empty_rir (programExercise : ProgramWorkoutExercise.t) :
  ∃ q, nextWeight (WorkoutExerciseLog.mk 1 1 1 [8; 8; 8] [] 10) programExercise = F q
       ∧ (q == 50)%Q.
Proof. eexists. split; [vm_compute; reflexivity|]. vm_compute. reflexivity. Qed.
End average.

(** ** Profile updates *)

Section profile.
Import UserRepository UserService.

Lemma validGoals_list (goal : string) :
  default false (validGoals !! goal)
  = bool_decide (goal ∈ ["weight_loss"; "muscle_gain"; "maintenance"; "endurance"]).
Proof.
  unfold validGoals.
  destruct (decide (goal = "weight_loss")) as [->|H1]; [done|].
  destruct (decide (goal = "muscle_gain")) as [->|H2]; [done|].
  destruct (decide (goal = "maintenance")) as [->|H3]; [done|].
  destruct (decide (goal = "endurance")) as [->|H4]; [done|].
  rewrite !lookup_insert_ne, lookup_singleton_ne by done.
  rewrite bool_decide_eq_false_2; [done|].
  rewrite !elem_of_cons, elem_of_nil. tauto.
Qed.

Lemma validActivityLevels_list (activityLevel : string) :
  default false (validActivityLevels !! activityLevel)
  = bool_decide (activityLevel ∈ ["sedentary"; "lightly_active"; "moderately_active";
                                  "very_active"; "extra_active"]).
Proof.
  unfold validActivityLevels.
  destruct (decide (activityLevel = "sedentary")) as [->|H1]; [done|].
  destruct (decide (activityLevel = "lightly_active")) as [->|H2]; [done|].
  destruct (decide (activityLevel = "moderately_active")) as [->|H3]; [done|].
  destruct (decide (activityLevel = "very_active")) as [->|H4]; [done|].
  destruct (decide (activityLevel = "extra_active")) as [->|H5]; [done|].
  rewrite !lookup_insert_ne, lookup_singleton_ne by done.
  rewrite bool_decide_eq_false_2; [done|].
  rewrite !elem_of_cons, elem_of_nil. tauto.
Qed.

Lemma age_gate (age : Z) : (age >=? 13) && (age <=? 120) = bool_decide (13 ≤ age ≤ 120).
Proof.
  destruct (Z.geb_spec age 13), (Z.leb_spec age 120); cbn;
    [rewrite bool_decide_eq_true_2 by lia|rewrite bool_decide_eq_false_2 by lia..]; done.
Qed.

Lemma program_id_gate (program_id : Z) : (program_id >? 0) = bool_decide (0 < program_id).
Proof.
  destruct (Z.gtb_spec program_id 0);
    [rewrite bool_decide_eq_true_2 by lia|rewrite bool_decide_eq_false_2 by lia]; done.
Qed.

Lemma name_gate (name : string) : negb (String.eqb name "") = negb (bool_decide (name = "")).
Proof.
  destruct (String.eqb_spec name "");
    [rewrite bool_decide_eq_true_2 by done|rewrite bool_decide_eq_false_2 by done]; done.
Qed.

(** A JSON number decodes to a float64, which the assertions
    [value.(int)] of the fields age and program_id refuse. *)
Lemma json_number_not_int (f : float64) :
  accept_age (Float64 f) = None ∧ accept_program_id (Float64 f) = None
  ∧ ∀ user, applyUpdate user ("age", Float64 f) = user
            ∧ applyUpdate user ("program_id", Float64 f) = user.
Proof. repeat split. Qed.

(** The key of a singleton map other than [key]. *)
Lemma field_update_singleton_ne {A : Type} (k key : string) (value : any)
    (accept : any → option A) (stored : A) :
  k ≠ key → field_update {[k := value]} key accept stored = stored.
Proof. intros Hne. unfold field_update. by rewrite lookup_singleton_ne. Qed.

Lemma field_update_singleton_eq {A : Type} (key : string) (value : any)
    (accept : any → option A) (stored : A) :
  field_update {[key := value]} key accept stored = default stored (accept value).
Proof. unfold field_update. by rewrite lookup_singleton_eq. Qed.

(** One turn of the loop is the field-by-field update by the one entry. *)
Lemma applyUpdate_spec (user : User.t) (key : string) (value : any) :
  applyUpdate user (key, value) = updated_profile user {[key := value]}.
Proof.
  unfold applyUpdate, updated_profile.
  repeat match goal with
         | |- context [String.eqb key ?lit] =>
             destruct (String.eqb_spec key lit) as [->|?]
         end;
    rewrite ?field_update_singleton_eq, ?field_update_singleton_ne by done.
  all: destruct user; try reflexivity.
  all: destruct value; try reflexivity; cbn.
  all: rewrite ?age_gate, ?program_id_gate, ?validGoals_list,
         ?validActivityLevels_list, ?name_gate.
  all: match goal with
       | |- context [if ?b then Some _ else None] => destruct b
       | |- context [if ?b then None else Some _] => destruct b
       end; reflexivity.
Qed.

Lemma field_update_insert {A : Type} (updates : gmap string any) (k key : string)
    (value : any) (accept : any → option A) (stored : A) :
  updates !! k = None →
  field_update (<[k := value]> updates) key accept stored
  = field_update updates key accept (field_update {[k := value]} key accept stored).
Proof.
  intros Hfresh. unfold field_update.
  destruct (decide (k = key)) as [->|Hne].
  - by rewrite lookup_insert_eq, lookup_singleton_eq, Hfresh.
  - by rewrite lookup_insert_ne, lookup_singleton_ne.
Qed.

Lemma updated_profile_insert (user : User.t) (updates : gmap string any) (k : string)
    (value : any) :
  updates !! k = None →
  updated_profile user (<[k := value]> updates)
  = updated_profile (updated_profile user {[k := value]}) updates.
Proof.
  intros Hfresh. unfold updated_profile. cbn.
  by rewrite !(field_update_insert updates k _ value _ _ Hfresh).
Qed.

Lemma updated_profile_empty (user : User.t) : updated_profile user ∅ = user.
Proof. by destruct user. Qed.

(** The loop over the entries in any order without repeated keys. *)
Lemma foldl_applyUpdate (entries : list (string * any)) (user : User.t) :
  NoDup entries.*1 →
  foldl applyUpdate user entries = updated_profile user (list_to_map entries).
Proof.
  revert user. induction entries as [|[k value] entries IH]; intros user Hnd.
  - cbn. by rewrite updated_profile_empty.
  - cbn in Hnd. apply NoDup_cons in Hnd as [Hk Hnd].
    cbn [foldl]. rewrite applyUpdate_spec, IH, list_to_map_cons by done.
    rewrite updated_profile_insert; [done|].
    by apply not_elem_of_list_to_map_1.
Qed.

(** Go leaves the order of [range] over a map open; every order gives the
    same user. *)
Lemma validateAndApplyProfileUpdates_in_order (entries : list (string * any))
    (updates : gmap string any) (user : User.t) :
  entries ≡ₚ map_to_list updates →
  validateAndApplyProfileUpdates_in entries user = (updated_profile user updates, None).
Proof.
  intros Hperm. unfold validateAndApplyProfileUpdates_in.
  assert (Hnd : NoDup entries.*1).
  { rewrite Hperm. apply NoDup_fst_map_to_list. }
  rewrite foldl_applyUpdate by done.
  rewrite (list_to_map_proper entries (map_to_list updates) Hnd Hperm).
  by rewrite list_to_map_to_list.
Qed.









Lemma filter_map_pres {A : Type} (P : A → Prop) `{∀ x, Decision (P x)} (g : A → A)
    (l : list A) :
  (∀ x, P (g x) ↔ P x) → filter P (map g l) = map g (filter P l).
Proof.
  intros Hg. induction l as [|x l IH]; [done|].
  cbn [map]. rewrite !filter_cons, IH.
  destruct (decide (P x)) as [Hx|Hx].
  - by rewrite decide_True by (by apply Hg).
  - by rewrite decide_False by (by rewrite Hg).
Qed.




End profile.

(** ** The invariant: at most one active program per user *)

Section invariant.
Import ProgramRepository ProgramService.

Implicit Types (db : DB) (up : UserProgram.t).

Lemma active_programs_rows db db' userID :
  user_programs db' = user_programs db →
  active_programs db' userID = active_programs db userID.
Proof. unfold active_programs. by intros ->. Qed.

Lemma active_deactivated (rows : list UserProgram.t) (id : Z) (userID : string) :
  filter (λ r, UserProgram.UserID r = userID ∧ UserProgram.IsActive r = true)
         (deactivated id rows)
  = filter (λ r, UserProgram.ID r ≠ id)
      (filter (λ r, UserProgram.UserID r = userID ∧ UserProgram.IsActive r = true) rows).
Proof.
  unfold deactivated.
  apply (deactivate_filter
           (λ r, UserProgram.UserID r = userID ∧ UserProgram.IsActive r = true)).
  tauto.
Qed.

Lemma UpdateUserProgram_tables db up db' err :
  UpdateUserProgram db up = (db', err) →
  users db' = users db
  ∧ (err ≠ None → db' = db).
Proof.
  unfold UpdateUserProgram. destruct (_ =? _)%nat; intros [= <- <-]; done.
Qed.

Lemma CreateUserProgram_tables db now up db' new err :
  CreateUserProgram db now up = (db', new, err) →
  users db' = users db
  ∧ (err ≠ None → db' = db)
  ∧ (err = None → ∃ r, r ∈ users db ∧ User.ID r.1 = UserProgram.UserID up).
Proof.
  unfold CreateUserProgram.
  destruct (existsb _ (users db)) eqn:Huser; cbn [negb];
    [|intros [= <- <- <-]; done].
  destruct (negb _); intros [= <- <- <-]; [done|].
  repeat split; try done. intros _.
  apply existsb_exists in Huser as (r & Hr & Hid).
  exists r. split; [by apply list_elem_of_In|].
  by apply String.eqb_eq in Hid.
Qed.

(** The table [user_programs] after [AssignProgramToUser], whatever it
    returns: untouched; or one row of the user deactivated; or that and
    the new active row appended. *)
Lemma AssignProgramToUser_rows db now userID programID :
  let db' := (AssignProgramToUser db now userID programID).1 in
  users db' = users db
  ∧ (user_programs db' = user_programs db
     ∨ ∃ old rest,
         active_programs db userID = old :: rest
         ∧ (user_programs db' = deactivated (UserProgram.ID old) (user_programs db)
            ∨ ∃ new,
                user_programs db'
                = deactivated (UserProgram.ID old) (user_programs db) ++ [new]
                ∧ UserProgram.UserID new = userID
                ∧ ∃ r, r ∈ users db ∧ User.ID r.1 = userID)).
Proof.
  unfold AssignProgramToUser. rewrite GetUserActiveProgram_active.
  destruct (active_programs db userID) as [|old rest] eqn:Hact; [cbn; auto|].
  cbn -[UpdateUserProgram CreateUserProgram].
  destruct (UpdateUserProgram db _) as [db1 [e|]] eqn:Hupd.
  - apply UpdateUserProgram_tables in Hupd as [_ ->]; [cbn; auto|done].
  - pose proof (UpdateUserProgram_rows _ _ _ Hupd) as Hrows1.
    apply UpdateUserProgram_tables in Hupd as [Husers1 _].
    destruct (CreateUserProgram db1 _ _) as [[db2 new] err] eqn:Hcreate.
    pose proof (CreateUserProgram_tables _ _ _ _ _ _ Hcreate) as (Husers2 & Herr & Hfk).
    cbn. split; [congruence|]. right. exists old, rest. split; [done|].
    destruct err as [e|].
    + left. rewrite Herr by done. exact Hrows1.
    + right. apply CreateUserProgram_ok in Hcreate as (Hrows2 & Hu & _).
      exists new. rewrite Hrows2, Hrows1. split; [done|]. split; [done|].
      destruct Hfk as (r & Hr & Hid); [done|]. exists r. by rewrite <- Husers1.
Qed.

(** [AssignProgramToUser] keeps the invariant for every user, whether it
    succeeds or fails on the way. *)
Lemma AssignProgramToUser_preserves db now userID programID :
  single_active db ∧ user_programs_fk db →
  single_active (AssignProgramToUser db now userID programID).1
  ∧ user_programs_fk (AssignProgramToUser db now userID programID).1.
Proof.
  intros [Hsingle Hfk].
  destruct (AssignProgramToUser_rows db now userID programID) as [Husers Hrows].
  set (db' := (AssignProgramToUser db now userID programID).1) in *.
  destruct Hrows as [Hrows|(old & rest & Hact & [Hrows|(new & Hrows & Hnew & Hr)])].
  - split.
    + intros v. rewrite (active_programs_rows db db' v Hrows). apply Hsingle.
    + intros up Hup. rewrite Hrows in Hup. rewrite Husers. by apply Hfk.
  - split.
    + intros v. unfold active_programs. rewrite Hrows, active_deactivated.
      etrans; [apply length_filter|]. apply Hsingle.
    + intros up Hup. rewrite Hrows in Hup.
      apply list_elem_of_fmap in Hup as (r & -> & Hr). rewrite Husers.
      destruct (Hfk r Hr) as (u & Hu & Hid). exists u. split; [done|].
      by destruct (decide _).
  - split.
    + intros v. unfold active_programs.
      rewrite Hrows, filter_app, active_deactivated, length_app.
      destruct (decide (v = userID)) as [->|Hv].
      * fold (active_programs db userID). rewrite Hact.
        pose proof (Hsingle userID) as Hone. rewrite Hact in Hone.
        destruct rest; [|cbn in Hone; lia].
        rewrite filter_cons_False by (intros ?; done).
        rewrite !filter_nil, (filter_cons _ new), filter_nil.
        destruct (decide _); cbn; lia.
      * rewrite (filter_cons_False _ new) by (intros [? ?]; congruence).
        rewrite filter_nil. cbn. rewrite Nat.add_0_r.
        etrans; [apply length_filter|]. apply Hsingle.
    + intros up Hup. rewrite Hrows in Hup. rewrite Husers.
      apply elem_of_app in Hup as [Hup|Hup].
      * apply list_elem_of_fmap in Hup as (r & -> & Hr').
        destruct (Hfk r Hr') as (u & Hu & Hid). exists u. split; [done|].
        by destruct (decide _).
      * apply list_elem_of_singleton in Hup as ->. by rewrite Hnew.
Qed.

Lemma CreateUser_tables db now uuid user db' user' err :
  UserRepository.CreateUser db now uuid user = (db', user', err) →
  user_programs db' = user_programs db
  ∧ (err ≠ None → db' = db)
  ∧ (err = None →
     User.ID user' = uuid
     ∧ (∀ r, r ∈ users db → User.ID r.1 ≠ uuid)
     ∧ ∃ row, users db' = users db ++ [(row, false)] ∧ User.ID row = uuid).
Proof.
  unfold UserRepository.CreateUser.
  destruct (existsb _ (users db)) eqn:Hpk; cbv iota; [intros [= <- <- <-]; done|].
  match goal with
  | |- context [if existsb ?f ?l then _ else _] => destruct (existsb f l)
  end; cbv iota; [intros [= <- <- <-]; done|].
  destruct (negb _); cbv iota; intros [= <- <- <-]; [done|].
  repeat split; try done.
  - intros r Hr Hid.
    assert (Hex : existsb (λ r, String.eqb (User.ID r.1) uuid) (users db) = true);
      [|congruence].
    apply existsb_exists. exists r. split; [by apply list_elem_of_In|].
    by apply String.eqb_eq.
  - eexists. split; [reflexivity|done].
Qed.

Lemma UserRepository_CreateUserProgram_tables db now up db' new err :
  UserRepository.CreateUserProgram db now up = (db', new, err) →
  users db' = users db
  ∧ (err ≠ None → db' = db)
  ∧ (err = None →
     ∃ row, user_programs db' = user_programs db ++ [row]
            ∧ UserProgram.UserID row = UserProgram.UserID up
            ∧ ∃ r, r ∈ users db ∧ User.ID r.1 = UserProgram.UserID up).
Proof.
  unfold UserRepository.CreateUserProgram.
  destruct (existsb _ (users db)) eqn:Huser; cbn [negb];
    [|intros [= <- <- <-]; done].
  destruct (negb _); intros [= <- <- <-]; [done|].
  repeat split; try done. intros _. eexists. split; [reflexivity|]. split; [done|].
  apply existsb_exists in Huser as (r & Hr & Hid).
  exists r. split; [by apply list_elem_of_In|].
  by apply String.eqb_eq in Hid.
Qed.

(** A registration adds the first, active enrolment of a user that did
    not exist. *)
Lemma Register_preserves db now uuid user :
  single_active db ∧ user_programs_fk db →
  single_active (AuthHandler.Register db now uuid user).1
  ∧ user_programs_fk (AuthHandler.Register db now uuid user).1.
Proof.
  intros [Hsingle Hfk]. unfold AuthHandler.Register.
  destruct (UserRepository.CreateUser db now uuid user) as [[db1 user1] err1] eqn:Hcu.
  apply CreateUser_tables in Hcu as (Hrows1 & Herr1 & Hok1).
  destruct err1 as [e|]; [rewrite Herr1 by done; done|].
  destruct Hok1 as (Hid & Hfresh & row & Husers1 & Hrow); [done|].
  destruct (UserRepository.CreateUserProgram db1 now _) as [[db2 new] err2] eqn:Hcp.
  apply UserRepository_CreateUserProgram_tables in Hcp as (Husers2 & Herr2 & Hok2).
  cbn in Hok2.
  assert (Hfk1 : ∀ up, up ∈ user_programs db →
                   ∃ r, r ∈ users db1 ∧ User.ID r.1 = UserProgram.UserID up).
  { intros up Hup. destruct (Hfk up Hup) as (r & Hr & Hrid).
    exists r. split; [|done]. rewrite Husers1. apply elem_of_app. by left. }
  cbn. destruct err2 as [e|].
  - rewrite Herr2 by done. split.
    + intros v. rewrite (active_programs_rows db db1 v Hrows1). apply Hsingle.
    + intros up Hup. rewrite Hrows1 in Hup. by apply Hfk1.
  - destruct Hok2 as (new' & Hrows2 & Hnew & _); [done|]. split.
    + intros v. unfold active_programs. rewrite Hrows2, Hrows1, filter_app, length_app.
      destruct (decide (v = uuid)) as [->|Hv].
      * assert (Hnone : filter (λ r, UserProgram.UserID r = uuid
                                      ∧ UserProgram.IsActive r = true)
                               (user_programs db) = []).
        { destruct (filter _ _) as [|up rest] eqn:Hf; [done|]. exfalso.
          assert (Hup : up ∈ filter (λ r, UserProgram.UserID r = uuid
                                          ∧ UserProgram.IsActive r = true)
                                    (user_programs db))
            by (rewrite Hf; constructor).
          apply list_elem_of_filter in Hup as [[Hu _] Hup].
          destruct (Hfk up Hup) as (r & Hr & Hrid).
          apply (Hfresh r Hr). congruence. }
        rewrite Hnone, filter_cons, filter_nil. destruct (decide _); cbn; lia.
      * rewrite (filter_cons_False _ new') by (intros [? ?]; congruence).
        rewrite filter_nil. cbn. rewrite Nat.add_0_r. apply Hsingle.
    + intros up Hup. rewrite Hrows2, Hrows1 in Hup. rewrite Husers2.
      apply elem_of_app in Hup as [Hup|Hup]; [by apply Hfk1|].
      apply list_elem_of_singleton in Hup as ->.
      exists (row, false). split.
      * rewrite Husers1. apply elem_of_app. right. constructor.
      * cbn. congruence.
Qed.

Lemma CompleteWorkoutSession_tables db now sessionID exercises :
  users (CompleteWorkoutSession db now sessionID exercises).1 = users db
  ∧ user_programs (CompleteWorkoutSession db now sessionID exercises).1 = user_programs db.
Proof.
  revert db. induction exercises as [|exercise exercises IH]; intros db; [done|].
  cbn [CompleteWorkoutSession].
  destruct (CreateWorkoutExerciseLog db now _) as [db1 [e|]] eqn:Hcreate.
  - by apply CreateWorkoutExerciseLog_err in Hcreate as ->.
  - destruct (IH db1) as [-> ->].
    unfold CreateWorkoutExerciseLog in Hcreate.
    destruct (workout_exercises_check _); [done|].
    repeat (destruct (negb _); [done|]). by injection Hcreate as <-.
Qed.

Lemma UpdateUserProfile_tables db now userID updates :
  user_programs (UserService.UpdateUserProfile db now userID updates).1.1 = user_programs db
  ∧ ∀ r, r ∈ users db →
      ∃ r', r' ∈ users (UserService.UpdateUserProfile db now userID updates).1.1
            ∧ User.ID r'.1 = User.ID r.1.
Proof.
  unfold UserService.UpdateUserProfile.
  destruct (UserRepository.GetUserByID db userID) as [[user|] [e|]]; cbn; eauto.
  unfold UserRepository.UpdateUser.
  destruct (_ =? _)%nat; cbn; eauto.
  destruct (negb _); cbn; eauto.
  split; [done|]. intros r Hr. eexists. split.
  - apply list_elem_of_fmap_2. exact Hr.
  - by destruct (decide _).
Qed.

(** Every database the entry points reach satisfies the invariant: no
    user has two active programs. *)
Lemma reachable_single_active db :
  reachable db → single_active db ∧ user_programs_fk db.
Proof.
  induction 1 as [db Hempty|db now uuid user _ IH|db now userID programID _ IH
                 |db now userID updates _ IH|db now sessionID exercises _ IH].
  - split.
    + intros v. unfold active_programs. rewrite Hempty. cbn. lia.
    + intros up Hup. rewrite Hempty in Hup. by apply elem_of_nil in Hup.
  - by apply Register_preserves.
  - by apply AssignProgramToUser_preserves.
  - destruct IH as [Hsingle Hfk].
    destruct (UpdateUserProfile_tables db now userID updates) as [Hrows Husers].
    split.
    + intros v. rewrite (active_programs_rows db _ v Hrows). apply Hsingle.
    + intros up Hup. rewrite Hrows in Hup.
      destruct (Hfk up Hup) as (r & Hr & Hid).
      destruct (Husers r Hr) as (r' & Hr' & Hid'). exists r'. split; [done|]. congruence.
  - destruct IH as [Hsingle Hfk].
    destruct (CompleteWorkoutSession_tables db now sessionID exercises) as [Husers Hrows].
    split.
    + intros v. rewrite (active_programs_rows db _ v Hrows). apply Hsingle.
    + intros up Hup. rewrite Hrows in Hup. rewrite Husers. by apply Hfk.
Qed.
End invariant.


(** * Further properties *)

(** ** The adjustment as a function of the reported RIR *)

Ltac split_Qle_bool :=
  repeat match goal with
         | |- context [Qle_bool ?x ?y] =>
             let E := fresh "E" in
             destruct (Qle_bool x y) eqn:E;
             [apply Qle_bool_iff in E | apply Qle_bool_false in E]
         end.

(** X1. For a fixed target, reporting more reps in reserve never lowers
    the multiplier: [calculateWeightAdjustment] is monotone in the actual
    RIR. *)
Theorem calculateWeightAdjustment_monotone (actual actual' target : Q) :
  (actual <= actual')%Q →
  (calculateWeightAdjustment (F actual) (F target)
   <=? calculateWeightAdjustment (F actual') (F target))%f = true.
Proof.
  intros Hle.
  unfold calculateWeightAdjustment, fsub, fadd, fneg, fge, fle. cbv zeta.
  split_Qle_bool; try reflexivity; exfalso; lra.
Qed.

Lemma calculateWeightAdjustment_monotone_witness :
  (calculateWeightAdjustment (F 1) (F 2) <=? calculateWeightAdjustment (F 3) (F 2))%f = true.
Proof. apply calculateWeightAdjustment_monotone. vm_compute. discriminate. Defined.

(** X2. Exchanging the actual and the target RIR mirrors the multiplier
    around 1: the two multipliers add up to 2, so an overshoot by some
    amount is raised by what the same undershoot is lowered. *)
Theorem calculateWeightAdjustment_mirror (actual target : Q) :
  ∃ m m' : Q,
    calculateWeightAdjustment (F actual) (F target) = F m
    ∧ calculateWeightAdjustment (F target) (F actual) = F m'
    ∧ (m + m' == 2)%Q.
Proof.
  unfold calculateWeightAdjustment, fsub, fadd, fneg, fge, fle. cbv zeta.
  split_Qle_bool; try (exfalso; lra);
    eexists _, _; (split; [reflexivity|]); (split; [reflexivity|]); reflexivity.
Qed.

(** ** The order of the sets *)

Lemma Zsum_Permutation (l l' : list Z) : l ≡ₚ l' → Zsum l = Zsum l'.
Proof.
  unfold Zsum. induction 1 as [|x l l' _ IH|x y l|l l' l'' _ IH1 _ IH2]; cbn; lia.
Qed.

(** X3. The order in which the sets of an exercise were logged does not
    matter: two logs whose RIR arrays hold the same INTEGER values in
    another order have the same average and get the same next weight. *)
Theorem nextWeight_order_of_sets (exerciseLog exerciseLog' : WorkoutExerciseLog.t)
    (programExercise : ProgramWorkoutExercise.t) :
  WorkoutExerciseLog.ActualRIR exerciseLog ≡ₚ WorkoutExerciseLog.ActualRIR exerciseLog' →
  Forall is_int32 (WorkoutExerciseLog.ActualRIR exerciseLog) →
  Z.of_nat (length (WorkoutExerciseLog.ActualRIR exerciseLog)) < 2 ^ 31 →
  calculateAverageRIR (WorkoutExerciseLog.ActualRIR exerciseLog)
  = calculateAverageRIR (WorkoutExerciseLog.ActualRIR exerciseLog')
  ∧ ProgramService.nextWeight exerciseLog programExercise
    = ProgramService.nextWeight exerciseLog' programExercise.
Proof.
  intros Hperm Hint Hlen.
  assert (Havg : calculateAverageRIR (WorkoutExerciseLog.ActualRIR exerciseLog)
                 = calculateAverageRIR (WorkoutExerciseLog.ActualRIR exerciseLog')).
  { unfold calculateAverageRIR. cbv zeta.
    assert (Hint' : Forall is_int32 (WorkoutExerciseLog.ActualRIR exerciseLog'))
      by (by rewrite <- Hperm).
    pose proof (Permutation_length Hperm) as Hlength.
    rewrite !sum_loop_no_wrap by (try done; lia).
    by rewrite (Zsum_Permutation _ _ Hperm), Hlength. }
  split; [exact Havg|]. unfold ProgramService.nextWeight. by rewrite Havg.
Qed.

Lemma nextWeight_order_of_sets_witness :
  ProgramService.nextWeight (WorkoutExerciseLog.mk 7 1 1 [8; 8; 8] [4; 3; 2] 10)
    (ProgramWorkoutExercise.mk 1 1 1 3 8 2 (F 0) 1 "")
  = ProgramService.nextWeight (WorkoutExerciseLog.mk 8 1 1 [8; 8; 8] [2; 4; 3] 10)
      (ProgramWorkoutExercise.mk 1 1 1 3 8 2 (F 0) 1 "").
Proof.
  apply (nextWeight_order_of_sets (WorkoutExerciseLog.mk 7 1 1 [8; 8; 8] [4; 3; 2] 10)
           (WorkoutExerciseLog.mk 8 1 1 [8; 8; 8] [2; 4; 3] 10)).
  - cbn. apply (bool_decide_unpack _). vm_compute. exact I.
  - repeat constructor; unfold is_int32; lia.
  - cbn. lia.
Defined.

(** ** The average between the extremes *)

Lemma Zsum_bounds (l : list Z) (lo hi : Z) :
  Forall (λ r, lo ≤ r ≤ hi) l →
  Z.of_nat (length l) * lo ≤ Zsum l ≤ Z.of_nat (length l) * hi.
Proof.
  induction 1 as [|r l Hr _ IH]; [cbn; lia|].
  cbn [Zsum foldr length] in *. unfold Zsum in IH. lia.
Qed.

(** X4. The average of a non-empty array of INTEGER values lies between
    any two bounds of its elements: it is never below the smallest nor
    above the largest reported RIR. *)
Theorem calculateAverageRIR_between (rirArray : list Z) (lo hi : Z) :
  rirArray ≠ [] →
  Forall is_int32 rirArray →
  Z.of_nat (length rirArray) < 2 ^ 31 →
  Forall (λ r, lo ≤ r ≤ hi) rirArray →
  ∃ q, calculateAverageRIR rirArray = F q
       ∧ (inject_Z lo <= q)%Q ∧ (q <= inject_Z hi)%Q.
Proof.
  intros Hne Hint Hlen Hbounds. unfold calculateAverageRIR. cbv zeta.
  rewrite sum_loop_no_wrap by (try done; lia). rewrite Z.add_0_l.
  unfold float64_of_int, fdiv.
  assert (Hpos : 0 < Z.of_nat (length rirArray)) by (destruct rirArray; [done|cbn; lia]).
  destruct (Qeq_bool (inject_Z (Z.of_nat (length rirArray))) 0) eqn:Hz.
  { apply Qeq_bool_iff in Hz. unfold Qeq in Hz. cbn in Hz. lia. }
  eexists. split; [reflexivity|].
  pose proof (Zsum_bounds rirArray lo hi Hbounds) as [Hlo Hhi].
  assert (Hn : (0 < inject_Z (Z.of_nat (length rirArray)))%Q)
    by (unfold Qlt; cbn; lia).
  split.
  - apply Qle_shift_div_l; [done|]. rewrite <- inject_Z_mult.
    rewrite <- Zle_Qle. lia.
  - apply Qle_shift_div_r; [done|]. rewrite <- inject_Z_mult.
    rewrite <- Zle_Qle. lia.
Qed.

Lemma calculateAverageRIR_between_witness :
  ∃ q, calculateAverageRIR [1; 3; 2] = F q ∧ (inject_Z 1 <= q)%Q ∧ (q <= inject_Z 3)%Q.
Proof.
  apply calculateAverageRIR_between.
  - discriminate.
  - repeat constructor; unfold is_int32; lia.
  - cbn. lia.
  - repeat constructor; lia.
Defined.

(** ** Rounding to the plate increment and the range of the estimate *)

(** [math.Round] moves a number by at most one half. *)
Lemma Qround_half_away_near (q : Q) :
  (- (1 # 2) <= inject_Z (Qround_half_away q) - q)%Q
  ∧ (inject_Z (Qround_half_away q) - q <= 1 # 2)%Q.
Proof.
  unfold Qround_half_away. destruct (Qle_bool 0 q).
  - pose proof (Qfloor_le (q + (1 # 2))) as Hle.
    pose proof (Qlt_floor (q + (1 # 2))) as Hlt.
    rewrite inject_Z_plus in Hlt. change (inject_Z 1) with 1%Q in Hlt.
    revert Hle Hlt. generalize (inject_Z (Qfloor (q + (1 # 2)))). intros r ? ?.
    split; lra.
  - pose proof (Qle_ceiling (q - (1 # 2))) as Hle.
    pose proof (Qceiling_lt (q - (1 # 2))) as Hlt.
    unfold Z.sub in Hlt. rewrite inject_Z_plus in Hlt.
    change (inject_Z (Z.opp 1)) with (Qopp 1) in Hlt.
    revert Hle Hlt. generalize (inject_Z (Qceiling (q - (1 # 2)))). intros r ? ?.
    split; lra.
Qed.

Lemma Qround_half_away_nonneg (q : Q) : (0 <= q)%Q → 0 ≤ Qround_half_away q.
Proof.
  intros Hq. unfold Qround_half_away.
  assert (Hb : Qle_bool 0 q = true) by (by apply Qle_bool_iff). rewrite Hb.
  change 0 with (Qfloor 0). apply Qfloor_resp_le. lra.
Qed.

(** The modifier is always a number between 0 and 1.2. *)
Lemma getExerciseModifier_range (exerciseID : Z) :
  ∃ m, ProgramService.getExerciseModifier exerciseID = F m ∧ (0 <= m)%Q ∧ (m <= 1.2)%Q.
Proof.
  destruct (decide (1 ≤ exerciseID ≤ 5)) as [Hin|Hout].
  - assert (Hcases : exerciseID = 1 ∨ exerciseID = 2 ∨ exerciseID = 3
                     ∨ exerciseID = 4 ∨ exerciseID = 5) by lia.
    destruct Hcases as [->|[->|[->|[->| ->]]]];
      eexists; (split; [reflexivity|]); split; vm_compute; discriminate.
  - rewrite (getExerciseModifier_outside_table _ Hout).
    eexists; (split; [reflexivity|]); split; vm_compute; discriminate.
Qed.

(** X5. When the template prescribes no positive weight, the weight
    suggested by [CalculateInitialWeights] is a whole number of 2.5 kg
    steps and differs from base strength times modifier by at most
    1.25. *)
Theorem suggestedWeight_rounded (user : User.t) (exercise : ProgramWorkoutExercise.t)
    (b p : Q) :
  ProgramService.calculateBaseStrength user = F b →
  ProgramWorkoutExercise.PrescribedWeight exercise = F p →
  (p <= 0)%Q →
  ∃ (k : Z) (m q : Q),
    ProgramService.getExerciseModifier (ProgramWorkoutExercise.ExerciseID exercise) = F m
    ∧ ProgramService.suggestedWeight user exercise = F q
    ∧ (q == inject_Z k * 2.5)%Q
    ∧ (- 1.25 <= q - b * m)%Q ∧ (q - b * m <= 1.25)%Q.
Proof.
  intros Hb Hp Hle.
  destruct (getExerciseModifier_range (ProgramWorkoutExercise.ExerciseID exercise))
    as (m & Hm & _).
  unfold ProgramService.suggestedWeight. rewrite Hp, Hb, Hm. cbn.
  assert (Hgt : Qle_bool p 0 = true) by (by apply Qle_bool_iff). rewrite Hgt. cbn.
  exists (Qround_half_away (b * m / 2.5)), m. eexists.
  split; [reflexivity|]. split; [reflexivity|]. split; [reflexivity|].
  destruct (Qround_half_away_near (b * m / 2.5)) as [Hlo Hhi].
  assert (Hdiv : (b * m / 2.5 * 2.5 == b * m)%Q) by (field).
  split; lra.
Qed.

Lemma suggestedWeight_rounded_witness :
  ∃ (k : Z) (q : Q),
    ProgramService.suggestedWeight example_user
      (ProgramWorkoutExercise.mk 1 1 1 3 8 2 (F 0) 1 "") = F q
    ∧ (q == inject_Z k * 2.5)%Q.
Proof.
  destruct (suggestedWeight_rounded example_user
              (ProgramWorkoutExercise.mk 1 1 1 3 8 2 (F 0) 1 "") 57.60%Q 0%Q)
    as (k & m & q & _ & Hq & Hk & _).
  - vm_compute. reflexivity.
  - reflexivity.
  - vm_compute. discriminate.
  - exists k, q. split; assumption.
Defined.

Lemma users_check_fields (user : User.t) :
  UserRepository.users_check user = true →
  13 ≤ User.Age user ≤ 120
  ∧ ∃ w, User.Weight user = F w ∧ (20 <= w)%Q ∧ (w <= 500)%Q.
Proof.
  unfold UserRepository.users_check. intros Hcheck.
  apply andb_true_iff in Hcheck as [Hcheck _].
  apply andb_true_iff in Hcheck as [Hcheck _].
  apply andb_true_iff in Hcheck as [Hcheck _].
  apply andb_true_iff in Hcheck as [Hcheck Hw2].
  apply andb_true_iff in Hcheck as [Hcheck Hw1].
  apply andb_true_iff in Hcheck as [Hcheck _].
  apply andb_true_iff in Hcheck as [Hcheck _].
  apply andb_true_iff in Hcheck as [Hcheck _].
  apply andb_true_iff in Hcheck as [Ha1 Ha2].
  split; [lia|].
  destruct (User.Weight user) as [w|[]|]; cbn in Hw1, Hw2; try done.
  exists w. split; [done|]. by split; apply Qle_bool_iff.
Qed.

(** For a user that satisfies the constraints of the table [users] the
    base strength is a number between 15 % and 78.48 % of the body
    weight. *)
Lemma calculateBaseStrength_share (user : User.t) :
  UserRepository.users_check user = true →
  ∃ w b,
    User.Weight user = F w
    ∧ ProgramService.calculateBaseStrength user = F b
    ∧ (20 <= w)%Q ∧ (w <= 500)%Q
    ∧ (0.15 * w <= b)%Q ∧ (b <= 0.7848 * w)%Q.
Proof.
  intros (Hage & w & Hw & Hw1 & Hw2)%users_check_fields.
  exists w. unfold ProgramService.calculateBaseStrength. rewrite Hw.
  rewrite !wrap64_small by (unfold is_int64; lia).
  assert (Ha1 : (0 <= inject_Z (User.Age user - 13))%Q)
    by (change 0%Q with (inject_Z 0); rewrite <- Zle_Qle; lia).
  assert (Ha2 : (inject_Z (User.Age user - 35) <= 85)%Q)
    by (change 85%Q with (inject_Z 85); rewrite <- Zle_Qle; lia).
  destruct (String.eqb (User.Sex user) "male");
    destruct (Z.ltb_spec (User.Age user) 25) as [Hlt|Hge];
    [| destruct (Z.gtb_spec (User.Age user) 35) as [Hgt|Hle35]
     | | destruct (Z.gtb_spec (User.Age user) 35) as [Hgt|Hle35]];
    cbn; eexists; (split; [reflexivity|]); (split; [reflexivity|]);
    (split; [exact Hw1|]); (split; [exact Hw2|]).
  all: try (assert (Ha3 : (inject_Z (User.Age user - 13) <= 11)%Q)
              by (change 11%Q with (inject_Z 11); rewrite <- Zle_Qle; lia)).
  all: try (assert (Ha4 : (1 <= inject_Z (User.Age user - 35))%Q)
              by (change 1%Q with (inject_Z 1); rewrite <- Zle_Qle; lia)).
  all: revert Ha1 Ha2; try revert Ha3; try revert Ha4;
    generalize (inject_Z (User.Age user - 13)) (inject_Z (User.Age user - 35));
    intros x y; intros.
  all: assert (Hw0 : (0 <= w)%Q) by lra.
  all: try (pose proof (Qmult_le_compat_r _ _ w Ha1 Hw0)).
  all: try (pose proof (Qmult_le_compat_r _ _ w Ha2 Hw0)).
  all: try (pose proof (Qmult_le_compat_r _ _ w Ha3 Hw0)).
  all: try (pose proof (Qmult_le_compat_r _ _ w Ha4 Hw0)).
  all: unfold Qdiv; change (/ 120)%Q with (1 # 120)%Q; change (/ 100)%Q with (1 # 100)%Q.
  all: split; lra.
Qed.



(** ** The map of initial weights *)


(** X8. For a user that satisfies the constraints of the table [users]
    and template rows whose prescribed weight is a non-negative number
    (the CHECK of the column), every initial weight is a non-negative
    number. *)
Theorem CalculateInitialWeights_nonnegative (db : DB) (user : User.t)
    (programID k : Z) (v : float64) :
  UserRepository.users_check user = true →
  (∀ e, e ∈ program_workout_exercises db →
        ∃ p, ProgramWorkoutExercise.PrescribedWeight e = F p ∧ (0 <= p)%Q) →
  (ProgramService.CalculateInitialWeights db user programID).1 !! k = Some v →
  ∃ q, v = F q ∧ (0 <= q)%Q.
Proof.
  intros (w & b & _ & Hb & Hw1 & _ & Hlo & _)%calculateBaseStrength_share Hcheck.
  rewrite CalculateInitialWeights_lookup. intros Hv.
  apply fmap_Some in Hv as (e & He & ->).
  apply last_Some_elem_of, list_elem_of_filter in He as [_ He].
  unfold visited in He. apply list_elem_of_bind in He as (pw & He & _).
  apply elem_of_GetProgramWorkoutExercises in He as [_ He].
  destruct (Hcheck e He) as (p & Hp & Hp0).
  destruct (getExerciseModifier_range (ProgramWorkoutExercise.ExerciseID e))
    as (m & Hm & Hm0 & _).
  unfold ProgramService.suggestedWeight. rewrite Hp, Hb, Hm. cbn.
  destruct (Qle_bool p 0) eqn:E; cbn.
  - eexists. split; [reflexivity|].
    assert (Hk : 0 ≤ Qround_half_away (b * m / 2.5)).
    { apply Qround_half_away_nonneg. apply Qle_shift_div_l; [done|].
      rewrite Qmult_0_l. apply Qmult_le_0_compat; lra. }
    apply Qmult_le_0_compat; [|done].
    change 0%Q with (inject_Z 0). by rewrite <- Zle_Qle.
  - exists p. done.
Qed.

Lemma CalculateInitialWeights_nonnegative_witness :
  ∃ q, (ProgramService.CalculateInitialWeights example_db example_user 1).1 !! 1 = Some (F q)
       ∧ (0 <= q)%Q.
Proof.
  destruct (CalculateInitialWeights_nonnegative example_db example_user 1 1 (F 57.5))
    as (q & Hq & Hq0).
  - reflexivity.
  - intros e He. cbn in He.
    apply elem_of_cons in He as [->|He]; [|apply elem_of_cons in He as [->|He]].
    + exists 0%Q. done.
    + exists 40%Q. done.
    + by apply elem_of_nil in He.
  - vm_compute. reflexivity.
  - exists 57.5%Q. split; [vm_compute; reflexivity|done].
Defined.

(** ** The outcomes of [CalculateNextWorkoutWeights] *)



Lemma nextWeightsLoop_values (db : DB) (exerciseLogs : list WorkoutExerciseLog.t)
    (P : float64 → Prop) :
  (∀ log pe, P (ProgramService.nextWeight log pe)) →
  ∀ weightMap weightMap',
    map_Forall (λ _, P) weightMap →
    ProgramService.nextWeightsLoop db weightMap exerciseLogs = (Some weightMap', None) →
    map_Forall (λ _, P) weightMap'.
Proof.
  intros HP. induction exerciseLogs as [|log logs IH]; intros weightMap weightMap' Hm.
  - cbn. by intros [= <-].
  - cbn [ProgramService.nextWeightsLoop].
    destruct (ProgramRepository.GetProgramWorkoutExercise db _) as [[pe|] [err|]];
      try done.
    apply IH. by apply map_Forall_insert_2.
Qed.

(** X10. Whatever was logged, every weight that
    [CalculateNextWorkoutWeights] suggests is one of 45, 47.5, 50, 52.5
    and 55: the five multipliers applied to the constant 50. *)
Theorem CalculateNextWorkoutWeights_values (db : DB) (userID : string)
    (programWorkoutID : Z) (weightMap : gmap Z float64) (k : Z) (v : float64) :
  ProgramService.CalculateNextWorkoutWeights db userID programWorkoutID
    = (Some weightMap, None) →
  weightMap !! k = Some v →
  ∃ q, v = F q
       ∧ ((q == 45) ∨ (q == 47.5) ∨ (q == 50) ∨ (q == 52.5) ∨ (q == 55))%Q.
Proof.
  unfold ProgramService.CalculateNextWorkoutWeights. intros Hcall Hv.
  destruct (ProgramRepository.GetLastWorkoutSessionByType db userID programWorkoutID)
    as [[lastSession|] [err|]]; try done.
  set (P := λ v : float64,
         ∃ q, v = F q
              ∧ ((q == 45) ∨ (q == 47.5) ∨ (q == 50) ∨ (q == 52.5) ∨ (q == 55))%Q).
  assert (Hall : map_Forall (λ _, P) weightMap).
  { eapply (nextWeightsLoop_values db _ P nextWeight_values ∅ weightMap);
      [apply map_Forall_empty|exact Hcall]. }
  exact (Hall k v Hv).
Qed.

Lemma CalculateNextWorkoutWeights_values_witness :
  ∃ q, (q == 55)%Q
       ∧ ∃ weightMap, ProgramService.CalculateNextWorkoutWeights example_db "u1" 1
                      = (Some weightMap, None)
                      ∧ weightMap !! 1 = Some (F q).
Proof.
  destruct (CalculateNextWorkoutWeights_values example_db "u1" 1
              {[ 1 := F 55.0 ]} 1 (F 55.0)) as (q & Hq & _).
  - vm_compute. reflexivity.
  - reflexivity.
  - exists 55.0%Q. split; [reflexivity|].
    exists {[ 1 := F 55.0 ]}. split; [vm_compute; reflexivity|reflexivity].
Defined.

(** ** Queries with ORDER BY *)

Section ordered.
Context {A : Type} (key : A → Z).

Lemma desc_trans : Transitive (desc key).
Proof. unfold desc. intros x y z ? ?. lia. Qed.

Lemma desc_total : Total (desc key).
Proof. unfold desc. intros x y. lia. Qed.

Lemma asc_trans : Transitive (asc key).
Proof. unfold asc. intros x y z ? ?. lia. Qed.

Lemma asc_total : Total (asc key).
Proof. unfold asc. intros x y. lia. Qed.

Lemma merge_sort_desc_sorted (l : list A) : StronglySorted (desc key) (merge_sort (desc key) l).
Proof. apply (@StronglySorted_merge_sort _ _ _ desc_trans desc_total). Qed.

Lemma merge_sort_asc_sorted (l : list A) : StronglySorted (asc key) (merge_sort (asc key) l).
Proof. apply (@StronglySorted_merge_sort _ _ _ asc_trans asc_total). Qed.

(** The first row of an ORDER BY ... DESC is a row of the table with the
    greatest key. *)
Lemma merge_sort_desc_head (l : list A) (x : A) (rest : list A) :
  merge_sort (desc key) l = x :: rest →
  x ∈ l ∧ ∀ y, y ∈ l → key y ≤ key x.
Proof.
  intros Hsort. pose proof (merge_sort_desc_sorted l) as Hsorted.
  rewrite Hsort in Hsorted. apply StronglySorted_inv in Hsorted as [_ Hall].
  split.
  - rewrite <- (merge_sort_Permutation (desc key) l), Hsort. constructor.
  - intros y Hy. rewrite <- (merge_sort_Permutation (desc key) l), Hsort in Hy.
    apply elem_of_cons in Hy as [->|Hy]; [lia|].
    rewrite Forall_forall in Hall. by apply Hall.
Qed.
End ordered.

(** X11. The session that [GetLastWorkoutSessionByType] returns is a
    session of the given program workout on an enrolment of the user,
    and no such session has a later completion date; it returns the
    error [pgx.ErrNoRows] exactly when there is no such session. *)
Theorem GetLastWorkoutSessionByType_most_recent (db : DB) (userID : string)
    (programWorkoutID : Z) :
  let mine (w : WorkoutSession.t) :=
    w ∈ workouts db
    ∧ WorkoutSession.ProgramWorkoutID w = programWorkoutID
    ∧ ∃ up, up ∈ user_programs db
            ∧ UserProgram.ID up = WorkoutSession.UserProgramID w
            ∧ UserProgram.UserID up = userID in
  (∃ session,
      ProgramRepository.GetLastWorkoutSessionByType db userID programWorkoutID
      = (Some session, None)
      ∧ mine session
      ∧ ∀ w, mine w → WorkoutSession.CompletedDate w ≤ WorkoutSession.CompletedDate session)
  ∨ (ProgramRepository.GetLastWorkoutSessionByType db userID programWorkoutID
     = (None, Some pgx_ErrNoRows)
     ∧ ∀ w, ¬ mine w).
Proof.
  intros mine. unfold ProgramRepository.GetLastWorkoutSessionByType.
  set (joined := filter _ (workouts db)).
  assert (Hjoined : ∀ w, w ∈ joined ↔ mine w).
  { intros w. unfold joined, mine. rewrite list_elem_of_filter, existsb_exists.
    split.
    - intros [[(up & Hup & Hb) Hpw] Hw]. split; [done|]. split; [done|].
      apply andb_true_iff in Hb as [Hid Hu].
      exists up. apply list_elem_of_In in Hup. split; [done|].
      apply Z.eqb_eq in Hid. apply String.eqb_eq in Hu. done.
    - intros (Hw & Hpw & up & Hup & Hid & Hu). split; [|done]. split; [|done].
      exists up. apply list_elem_of_In in Hup. split; [done|].
      apply andb_true_iff. split; [by apply Z.eqb_eq|by apply String.eqb_eq]. }
  destruct (merge_sort _ joined) as [|session rest] eqn:Hsort.
  - right. split; [done|]. intros w Hw%Hjoined.
    rewrite <- (merge_sort_Permutation (desc WorkoutSession.CompletedDate) joined),
      Hsort in Hw.
    by apply elem_of_nil in Hw.
  - left. exists session. split; [done|].
    apply merge_sort_desc_head in Hsort as [Hin Hmax]. split; [by apply Hjoined|].
    intros w Hw%Hjoined. by apply Hmax.
Qed.

(** ** Workout sessions *)

Section sessions.
Import ProgramRepository ProgramService.

Lemma existsb_elem_of {A : Type} (f : A → bool) (l : list A) :
  existsb f l = true ↔ ∃ x, x ∈ l ∧ f x = true.
Proof.
  rewrite existsb_exists. split; intros (x & Hx & Hf); exists x;
    (split; [by apply list_elem_of_In|done]).
Qed.

Lemma CreateWorkoutSession_ok (db : DB) (now : time) (id : Z) (session : WorkoutSession.t) :
  (∀ w, w ∈ workouts db → WorkoutSession.ID w ≠ id) →
  (∃ up, up ∈ user_programs db ∧ UserProgram.ID up = WorkoutSession.UserProgramID session) →
  (∃ pw, pw ∈ program_workouts db
         ∧ ProgramWorkout.ID pw = WorkoutSession.ProgramWorkoutID session) →
  let row := WorkoutSession.mk id (WorkoutSession.UserProgramID session)
               (WorkoutSession.ProgramWorkoutID session)
               (WorkoutSession.CompletedDate session) (WorkoutSession.Notes session) now in
  CreateWorkoutSession db now id session
  = (with_workouts (workouts db ++ [row]) db, row, id, None).
Proof.
  intros Hfresh (up & Hup & Hupid) (pw & Hpw & Hpwid) row. unfold CreateWorkoutSession.
  destruct (existsb _ (workouts db)) eqn:Hpk.
  { apply existsb_elem_of in Hpk as (w & Hw & Hid). apply Z.eqb_eq in Hid.
    by destruct (Hfresh w Hw). }
  destruct (existsb _ (user_programs db)) eqn:Hfk1; cycle 1.
  { exfalso. apply not_true_iff_false in Hfk1. apply Hfk1, existsb_elem_of.
    exists up. split; [done|]. by apply Z.eqb_eq. }
  destruct (existsb _ (program_workouts db)) eqn:Hfk2; cycle 1.
  { exfalso. apply not_true_iff_false in Hfk2. apply Hfk2, existsb_elem_of.
    exists pw. split; [done|]. by apply Z.eqb_eq. }
  reflexivity.
Qed.

Lemma CreateWorkoutSession_inv (db : DB) (now : time) (id : Z) (session : WorkoutSession.t)
    (db' : DB) (session' : WorkoutSession.t) (sessionID : Z) (err : option error) :
  CreateWorkoutSession db now id session = (db', session', sessionID, err) →
  match err with
  | Some _ => db' = db
  | None =>
      (∀ w, w ∈ workouts db → WorkoutSession.ID w ≠ id)
      ∧ (∃ pw, pw ∈ program_workouts db
               ∧ ProgramWorkout.ID pw = WorkoutSession.ProgramWorkoutID session)
      ∧ sessionID = id
      ∧ session' = WorkoutSession.mk id (WorkoutSession.UserProgramID session)
                     (WorkoutSession.ProgramWorkoutID session)
                     (WorkoutSession.CompletedDate session)
                     (WorkoutSession.Notes session) now
      ∧ db' = with_workouts (workouts db ++ [session']) db
  end.
Proof.
  unfold CreateWorkoutSession.
  destruct (existsb _ (workouts db)) eqn:Hpk; [by intros [= <- <- <- <-]|].
  destruct (existsb _ (user_programs db)) eqn:Hfk1; cbn [negb];
    [|by intros [= <- <- <- <-]].
  destruct (existsb _ (program_workouts db)) eqn:Hfk2; cbn [negb];
    [|by intros [= <- <- <- <-]].
  intros [= <- <- <- <-]. split; [|split; [|done]].
  - intros w Hw Hid. apply not_true_iff_false in Hpk. apply Hpk, existsb_elem_of.
    exists w. split; [done|]. by apply Z.eqb_eq.
  - apply existsb_elem_of in Hfk2 as (pw & Hpw & Hid). apply Z.eqb_eq in Hid. by exists pw.
Qed.

(** X12. [StartWorkoutSession] succeeds exactly when the user has an
    active program, the program workout exists and the id drawn for the
    session is free; the program workout need not belong to the program
    the user is enrolled in. When it fails, nothing is written. *)
Theorem StartWorkoutSession_succeeds_iff (db : DB) (now : time) (id : Z)
    (userID : string) (programWorkoutID : Z) :
  ((StartWorkoutSession db now id userID programWorkoutID).2 = None
   ↔ active_programs db userID ≠ []
     ∧ (∃ pw, pw ∈ program_workouts db ∧ ProgramWorkout.ID pw = programWorkoutID)
     ∧ (∀ w, w ∈ workouts db → WorkoutSession.ID w ≠ id))
  ∧ ((StartWorkoutSession db now id userID programWorkoutID).2 ≠ None →
     (StartWorkoutSession db now id userID programWorkoutID).1.1 = db).
Proof.
  unfold StartWorkoutSession. rewrite GetUserActiveProgram_active.
  destruct (active_programs db userID) as [|up rest] eqn:Hact.
  { cbn. split; [|done]. split; [done|]. by intros [? _]. }
  assert (Hup : up ∈ user_programs db).
  { assert (Hin : up ∈ active_programs db userID) by (rewrite Hact; constructor).
    unfold active_programs in Hin. apply list_elem_of_filter in Hin. tauto. }
  destruct (CreateWorkoutSession db now id _) as [[[db' session'] sessionID] err] eqn:Hc.
  pose proof (CreateWorkoutSession_inv _ _ _ _ _ _ _ _ Hc) as Hinv.
  destruct err as [e|]; cbn.
  - split; [|done]. split; [done|]. intros (_ & Hpw & Hfresh).
    rewrite CreateWorkoutSession_ok in Hc; [done|done|by exists up|done].
  - destruct Hinv as (Hfresh & Hpw & _). cbn in Hpw. split; [|done]. done.
Qed.

(** X13. A session that was just started is the first entry of the
    user's history, provided its time is later than the completion
    dates stored so far and the limit is at least 1. The stored session
    carries the drawn id, the active enrolment of the user, the program
    workout and the current time. *)
Theorem StartWorkoutSession_heads_history (db db' : DB) (now : time) (id : Z)
    (userID : string) (programWorkoutID limit : Z) (session : WorkoutSession.t) :
  StartWorkoutSession db now id userID programWorkoutID = (db', Some session, None) →
  (∀ w, w ∈ workouts db → WorkoutSession.CompletedDate w < now) →
  1 ≤ limit →
  (∃ up rest, active_programs db userID = up :: rest
              ∧ session = WorkoutSession.mk id (UserProgram.ID up) programWorkoutID
                            now "" now)
  ∧ workouts db' = workouts db ++ [session]
  ∧ ∃ older, GetWorkoutHistory db' userID limit = (session :: older, None).
Proof.
  unfold StartWorkoutSession, GetWorkoutHistory. rewrite !GetUserActiveProgram_active.
  destruct (active_programs db userID) as [|up rest] eqn:Hact; [done|].
  destruct (CreateWorkoutSession db now id _) as [[[db1 session'] sessionID] err] eqn:Hc.
  apply CreateWorkoutSession_inv in Hc.
  destruct err as [e|]; [done|]. destruct Hc as (_ & _ & -> & -> & ->).
  cbn. intros [= <- <-] Hlater Hlimit.
  split; [by exists up, rest|]. split; [done|].
  unfold active_programs in *. cbn. rewrite Hact.
  unfold GetWorkoutSessionsByUserProgram. cbn.
  set (row := WorkoutSession.mk id (UserProgram.ID up) programWorkoutID now "" now).
  set (mine := filter _ (workouts db ++ [row])).
  assert (Hrow : row ∈ mine).
  { unfold mine. apply list_elem_of_filter. split; [done|].
    apply elem_of_app. right. constructor. }
  destruct (merge_sort (desc WorkoutSession.CompletedDate) mine) as [|x sorted] eqn:Hsort.
  { rewrite <- (merge_sort_Permutation (desc WorkoutSession.CompletedDate) mine),
      Hsort in Hrow.
    by apply elem_of_nil in Hrow. }
  apply merge_sort_desc_head in Hsort as [Hx Hmax].
  assert (x = row) as ->.
  { unfold mine in Hx. apply list_elem_of_filter in Hx as [_ Hx].
    apply elem_of_app in Hx as [Hx|Hx]; [|by apply list_elem_of_singleton in Hx].
    apply Hlater in Hx. apply Hmax in Hrow. cbn in Hrow. lia. }
  destruct (Z.to_nat limit) as [|n] eqn:Hn; [lia|].
  cbn. by eexists.
Qed.

Lemma StartWorkoutSession_heads_history_witness :
  ∃ older,
    GetWorkoutHistory (StartWorkoutSession example_db 20 2 "u1" 1).1.1 "u1" 10
    = (WorkoutSession.mk 2 1 1 20 "" 20 :: older, None).
Proof.
  destruct (StartWorkoutSession_heads_history example_db
              (StartWorkoutSession example_db 20 2 "u1" 1).1.1 20 2 "u1" 1 10
              (WorkoutSession.mk 2 1 1 20 "" 20))
    as (_ & _ & older & Hhistory).
  - vm_compute. reflexivity.
  - intros w Hw. cbn in Hw. apply list_elem_of_singleton in Hw as ->. cbn. lia.
  - lia.
  - by exists older.
Defined.

(** X14. For a limit that is not negative, [GetWorkoutHistory] returns
    at most [limit] sessions, newest first, all of them stored sessions
    of the enrolment that is active for the user now: sessions done
    under an earlier enrolment are not part of the history. As many
    sessions are returned as the limit allows. *)
Theorem GetWorkoutHistory_newest_of_active (db : DB) (userID : string) (limit : Z)
    (history : list WorkoutSession.t) :
  0 ≤ limit →
  GetWorkoutHistory db userID limit = (history, None) →
  ∃ up rest,
    active_programs db userID = up :: rest
    ∧ StronglySorted (desc WorkoutSession.CompletedDate) history
    ∧ (∀ w, w ∈ history →
            w ∈ workouts db ∧ WorkoutSession.UserProgramID w = UserProgram.ID up)
    ∧ Z.of_nat (length history)
      = Z.min limit
          (Z.of_nat (length (filter (λ w, WorkoutSession.UserProgramID w = UserProgram.ID up)
                                    (workouts db)))).
Proof.
  unfold GetWorkoutHistory. rewrite GetUserActiveProgram_active. intros Hlimit.
  destruct (active_programs db userID) as [|up rest] eqn:Hact; [done|].
  unfold GetWorkoutSessionsByUserProgram. intros [= <-].
  exists up, rest. split; [done|].
  set (mine := filter _ (workouts db)).
  pose proof (merge_sort_desc_sorted WorkoutSession.CompletedDate mine) as Hsorted.
  pose proof (merge_sort_Permutation (desc WorkoutSession.CompletedDate) mine) as Hperm.
  split; [|split].
  - rewrite <- (take_drop (Z.to_nat limit)) in Hsorted.
    by apply StronglySorted_app_1_l in Hsorted.
  - intros w Hw%subseteq_take. rewrite Hperm in Hw.
    unfold mine in Hw. apply list_elem_of_filter in Hw. tauto.
  - rewrite length_take, Hperm. lia.
Qed.

Lemma GetWorkoutHistory_newest_of_active_witness :
  ∃ history, GetWorkoutHistory example_db "u1" 10 = (history, None)
             ∧ Z.of_nat (length history) = 1.
Proof.
  destruct (GetWorkoutHistory_newest_of_active example_db "u1" 10
              [WorkoutSession.mk 1 1 1 10 "" 10])
    as (up & rest & _ & _ & _ & Hlen).
  - lia.
  - vm_compute. reflexivity.
  - eexists. split; [vm_compute; reflexivity|reflexivity].
Defined.
End sessions.

(** ** Reading back what [CompleteWorkoutSession] stored *)

Section read_back.
Import ProgramRepository ProgramService.

(** The rows of a successful call: one per request, in the order of the
    requests, with the ids that the sequence hands out. *)
Lemma CompleteWorkoutSession_rows (exercises : list ExerciseLogRequest.t) (db db' : DB)
    (now : time) (sessionID : Z) :
  CompleteWorkoutSession db now sessionID exercises = (db', None) →
  ∃ rows,
    workout_exercises db' = workout_exercises db ++ rows
    ∧ Forall2 (stores sessionID) rows exercises
    ∧ StronglySorted (asc WorkoutExerciseLog.ID) rows
    ∧ NoDup (WorkoutExerciseLog.ID <$> rows)
    ∧ Forall (λ r, workout_exercises_id_seq db ≤ WorkoutExerciseLog.ID r) rows.
Proof.
  revert db. induction exercises as [|exercise exercises IH]; intros db.
  - cbn. intros [= <-]. exists []. rewrite app_nil_r.
    repeat split; constructor.
  - cbn [CompleteWorkoutSession].
    destruct (CreateWorkoutExerciseLog db now _) as [db1 [e|]] eqn:Hcreate; [done|].
    intros Hrest. destruct (IH db1 Hrest) as (rows & Hrows & Hstores & Hsorted & Hnd & Hge).
    unfold CreateWorkoutExerciseLog in Hcreate.
    destruct (workout_exercises_check _); [done|].
    repeat (destruct (negb _); [done|]). injection Hcreate as <-. cbn in *.
    eexists (_ :: rows). rewrite Hrows, <- app_assoc. cbn.
    split; [reflexivity|]. rewrite Forall_forall in Hge.
    split; [|split; [|split]].
    + constructor; [done|exact Hstores].
    + constructor; [done|]. apply Forall_forall. intros r Hr%Hge. unfold asc. cbn. lia.
    + apply NoDup_cons. split; [|done].
      intros (r & Hid & Hr%Hge)%list_elem_of_fmap. cbn in Hid. lia.
    + constructor; [cbn; lia|]. apply Forall_forall. intros r Hr%Hge. lia.
Qed.

(** X15. After a successful [CompleteWorkoutSession],
    [GetExerciseLogsByWorkout] of the session returns the logs it
    returned before followed by one log per request, in the order of
    the requests, each with the arrays of its request. The ids of the
    stored logs are distinct and below the next value of the sequence,
    as the SERIAL primary key makes them. *)
Theorem CompleteWorkoutSession_read_back (db db' : DB) (now : time) (sessionID : Z)
    (exercises : list ExerciseLogRequest.t) :
  NoDup (WorkoutExerciseLog.ID <$> workout_exercises db) →
  (∀ l, l ∈ workout_exercises db → WorkoutExerciseLog.ID l < workout_exercises_id_seq db) →
  CompleteWorkoutSession db now sessionID exercises = (db', None) →
  ∃ rows,
    GetExerciseLogsByWorkout db' sessionID = GetExerciseLogsByWorkout db sessionID ++ rows
    ∧ Forall2 (stores sessionID) rows exercises.
Proof.
  intros Hpk Hseq Hcall.
  destruct (CompleteWorkoutSession_rows _ _ _ _ _ Hcall)
    as (rows & Hrows & Hstores & Hsorted & Hnd & Hge).
  exists rows. split; [|done]. unfold GetExerciseLogsByWorkout. rewrite Hrows.
  set (mine := λ l : WorkoutExerciseLog.t, WorkoutExerciseLog.WorkoutID l = sessionID).
  assert (Hmine : filter mine rows = rows).
  { clear -Hstores. induction Hstores as [|r e rows es Hr _ IH]; [done|].
    rewrite filter_cons_True by apply Hr. by rewrite IH. }
  rewrite filter_app, Hmine. rewrite Forall_forall in Hge.
  assert (Hall : NoDup (WorkoutExerciseLog.ID <$> (workout_exercises db ++ rows))).
  { rewrite fmap_app. apply NoDup_app. split; [done|]. split; [|done].
    intros id (l & -> & Hl%Hseq)%list_elem_of_fmap (r & Hid & Hr%Hge)%list_elem_of_fmap.
    lia. }
  apply (StronglySorted_unique_strong (asc WorkoutExerciseLog.ID)).
  - intros x1 x2 Hx1 Hx2 H12 H21. unfold asc in *.
    apply (NoDup_fmap_eq WorkoutExerciseLog.ID _ x1 x2 Hall); [| |lia].
    + rewrite merge_sort_Permutation in Hx1.
      apply elem_of_app in Hx1 as [Hx1%list_elem_of_filter|Hx1];
        apply elem_of_app; tauto.
    + apply elem_of_app in Hx2 as [Hx2|Hx2]; apply elem_of_app; [left|by right].
      rewrite merge_sort_Permutation in Hx2. apply list_elem_of_filter in Hx2. tauto.
  - apply merge_sort_asc_sorted.
  - apply StronglySorted_app_2; [|apply merge_sort_asc_sorted|done].
    intros x1 x2 Hx1 Hx2%Hge. rewrite merge_sort_Permutation in Hx1.
    apply list_elem_of_filter in Hx1 as [_ Hx1%Hseq]. unfold asc. lia.
  - by rewrite !merge_sort_Permutation.
Qed.

Lemma CompleteWorkoutSession_read_back_witness :
  ∃ rows,
    GetExerciseLogsByWorkout
      (CompleteWorkoutSession example_db 30 1
         [ExerciseLogRequest.mk 2 [8; 8] [1; 2]]).1 1
    = GetExerciseLogsByWorkout example_db 1 ++ rows
    ∧ Forall2 (stores 1) rows [ExerciseLogRequest.mk 2 [8; 8] [1; 2]].
Proof.
  apply (CompleteWorkoutSession_read_back example_db _ 30 1).
  - cbn. apply NoDup_singleton.
  - intros l Hl. cbn in Hl. apply list_elem_of_singleton in Hl as ->. cbn. lia.
  - vm_compute. reflexivity.
Defined.
End read_back.

(** ** What a new assignment changes *)

Section reassignment.
Import ProgramRepository ProgramService.

(** The database after a successful [AssignProgramToUser]. *)
Lemma AssignProgramToUser_success (db db' : DB) (now : time) (userID : string)
    (programID : Z) :
  AssignProgramToUser db now userID programID = (db', None) →
  ∃ old rest,
    active_programs db userID = old :: rest
    ∧ (∃ program, program ∈ programs db ∧ Program.ID program = programID)
    ∧ db' = with_user_programs
              (deactivated (UserProgram.ID old) (user_programs db)
               ++ [UserProgram.mk (user_programs_id_seq db) userID programID now true now])
              (user_programs_id_seq db + 1) db.
Proof.
  intros (old & rest & db1 & new & Hact & Hupd & Hcreate)%AssignProgramToUser_ok.
  exists old, rest. split; [done|].
  unfold UpdateUserProgram in Hupd. destruct (_ =? _)%nat; [done|].
  injection Hupd as <-. unfold CreateUserProgram in Hcreate. cbn in Hcreate.
  destruct (existsb _ (users db)); [|done]. cbn [negb] in Hcreate.
  destruct (existsb _ (programs db)) eqn:Hprogram; [|done].
  injection Hcreate as <- _. split; [|done].
  apply existsb_exists in Hprogram as (program & Hin & Hid).
  exists program. split; [by apply list_elem_of_In|by apply Z.eqb_eq].
Qed.

Lemma NoDup_fmap_eq_gen {A K : Type} (key : A → K) (l : list A) (x y : A) :
  NoDup (key <$> l) → x ∈ l → y ∈ l → key x = key y → x = y.
Proof.
  induction l as [|a l IH]; intros Hnd Hx Hy Hk; [by apply elem_of_nil in Hx|].
  rewrite fmap_cons in Hnd. apply NoDup_cons in Hnd as [Ha Hnd].
  apply elem_of_cons in Hx as [->|Hx]; apply elem_of_cons in Hy as [->|Hy]; try done.
  - exfalso. apply Ha. rewrite Hk. by apply list_elem_of_fmap_2.
  - exfalso. apply Ha. rewrite <- Hk. by apply list_elem_of_fmap_2.
  - by apply IH.
Qed.

Lemma filter_keeps_all {A : Type} (P : A → Prop) `{∀ x, Decision (P x)} (l : list A) :
  (∀ x, x ∈ l → P x) → filter P l = l.
Proof.
  induction l as [|a l IH]; intros Hall; [done|].
  rewrite filter_cons_True by (apply Hall; constructor).
  f_equal. apply IH. intros x Hx. apply Hall. by constructor.
Qed.

Lemma filter_keeps_none {A : Type} (P : A → Prop) `{∀ x, Decision (P x)} (l : list A) :
  (∀ x, x ∈ l → ¬ P x) → filter P l = [].
Proof.
  induction l as [|a l IH]; intros Hnone; [done|].
  rewrite filter_cons_False by (apply Hnone; constructor).
  apply IH. intros x Hx. apply Hnone. by constructor.
Qed.

Lemma active_programs_deactivated_other (rows : list UserProgram.t) (id : Z)
    (userID : string) :
  (∀ up, up ∈ rows → UserProgram.ID up = id → UserProgram.UserID up ≠ userID) →
  filter (λ up, UserProgram.UserID up = userID ∧ UserProgram.IsActive up = true)
         (deactivated id rows)
  = filter (λ up, UserProgram.UserID up = userID ∧ UserProgram.IsActive up = true) rows.
Proof.
  intros Hother. unfold deactivated.
  rewrite (deactivate_filter
             (λ up, UserProgram.UserID up = userID ∧ UserProgram.IsActive up = true))
    by tauto.
  apply filter_keeps_all. intros up [[Hu _] Hup]%list_elem_of_filter Hid.
  by apply (Hother up Hup).
Qed.

(** X16. A successful [AssignProgramToUser] does not touch the active
    programs of any other user, given that the ids of [user_programs]
    are distinct (the primary key). *)
Theorem AssignProgramToUser_other_users (db db' : DB) (now : time) (userID other : string)
    (programID : Z) :
  NoDup (UserProgram.ID <$> user_programs db) →
  other ≠ userID →
  AssignProgramToUser db now userID programID = (db', None) →
  active_programs db' other = active_programs db other.
Proof.
  intros Hpk Hother (old & rest & Hact & _ & ->)%AssignProgramToUser_success.
  unfold active_programs. cbn.
  assert (Hold : old ∈ user_programs db ∧ UserProgram.UserID old = userID).
  { assert (Hin : old ∈ active_programs db userID) by (rewrite Hact; constructor).
    unfold active_programs in Hin. apply list_elem_of_filter in Hin. tauto. }
  rewrite filter_app, filter_cons_False, filter_nil, app_nil_r
    by (cbn; intros [? _]; congruence).
  apply active_programs_deactivated_other. intros up Hup Hid Hu.
  destruct Hold as [Hin Hold].
  assert (up = old) as -> by (by apply (NoDup_fmap_eq UserProgram.ID (user_programs db))).
  congruence.
Qed.

Lemma AssignProgramToUser_other_users_witness :
  active_programs (AssignProgramToUser example_db 77 "u1" 2).1 "u2"
  = active_programs example_db "u2".
Proof.
  apply (AssignProgramToUser_other_users example_db _ 77 "u1" "u2" 2).
  - cbn. apply NoDup_singleton.
  - discriminate.
  - vm_compute. reflexivity.
Defined.

(** X17. After a successful [AssignProgramToUser] of a user who had one
    active program, the user's workout history is empty: the history is
    read from the active enrolment only, and the sessions stored so far
    belong to enrolments created before (their [user_program_id] is
    below the next value of the sequence). *)
Theorem AssignProgramToUser_empties_history (db db' : DB) (now : time) (userID : string)
    (programID limit : Z) :
  (length (active_programs db userID) ≤ 1)%nat →
  (∀ w, w ∈ workouts db → WorkoutSession.UserProgramID w < user_programs_id_seq db) →
  AssignProgramToUser db now userID programID = (db', None) →
  GetWorkoutHistory db' userID limit = ([], None).
Proof.
  intros Hone Hfk (old & rest & Hact & _ & ->)%AssignProgramToUser_success.
  rewrite Hact in Hone. destruct rest; [|cbn in Hone; lia].
  unfold GetWorkoutHistory. rewrite GetUserActiveProgram_active.
  unfold active_programs in *. cbn.
  rewrite filter_app, filter_cons_True, filter_nil by done.
  unfold deactivated.
  rewrite (deactivate_filter
             (λ up, UserProgram.UserID up = userID ∧ UserProgram.IsActive up = true))
    by tauto.
  rewrite Hact, filter_cons_False, filter_nil by (intros ?; done).
  cbn. unfold GetWorkoutSessionsByUserProgram. cbn.
  assert (Hnone : filter (λ w, WorkoutSession.UserProgramID w = user_programs_id_seq db)
                         (workouts db) = []).
  { apply filter_keeps_none. intros w Hw%Hfk. lia. }
  rewrite Hnone. by destruct (Z.to_nat limit).
Qed.

Lemma AssignProgramToUser_empties_history_witness :
  GetWorkoutHistory (AssignProgramToUser example_db 77 "u1" 2).1 "u1" 10 = ([], None).
Proof.
  apply (AssignProgramToUser_empties_history example_db _ 77 "u1" 2 10).
  - vm_compute. lia.
  - intros w Hw. cbn in Hw. apply list_elem_of_singleton in Hw as ->. cbn. lia.
  - vm_compute. reflexivity.
Defined.


End reassignment.

(** ** Accounts: deletion, passwords, login *)

Section accounts.
Context `{Libraries}.

(** After the soft delete no row of the id is visible, and under the
    UNIQUE constraint no visible row has the email of the deleted
    user. *)
Lemma DeleteUser_hides (db db' : DB) (id : string) :
  NoDup ((λ r, User.Email r.1) <$> users db) →
  UserRepository.DeleteUser db id = (db', None) →
  ∃ user,
    UserRepository.GetUserByID db id = (Some user, None)
    ∧ (user, true) ∈ users db'
    ∧ length (users db') = length (users db)
    ∧ filter (λ r, User.ID r.1 = id ∧ r.2 = false) (users db') = []
    ∧ filter (λ r, User.Email r.1 = User.Email user ∧ r.2 = false) (users db') = [].
Proof.
  unfold UserRepository.DeleteUser, UserRepository.GetUserByID. intros Hemail.
  destruct (filter _ (users db)) as [|r0 rest] eqn:Hf; [done|]. cbn. intros [= <-].
  assert (Hr0 : r0 ∈ users db ∧ User.ID r0.1 = id ∧ r0.2 = false).
  { assert (Hin : r0 ∈ filter (λ r : User.t * bool, User.ID r.1 = id ∧ r.2 = false)
                              (users db)) by (rewrite Hf; constructor).
    apply list_elem_of_filter in Hin. tauto. }
  destruct Hr0 as (Hin & Hid & Hvisible).
  exists r0.1. split; [done|]. cbn. split; [|split; [|split]].
  - apply list_elem_of_fmap. exists r0. by rewrite decide_True.
  - apply length_map.
  - apply filter_keeps_none. intros r' (r & -> & Hr)%list_elem_of_fmap.
    destruct (decide _) as [Hhit|Hmiss]; cbn; [by intros [_ ?]|tauto].
  - apply filter_keeps_none. intros r' (r & -> & Hr)%list_elem_of_fmap.
    destruct (decide _) as [Hhit|Hmiss]; cbn; [by intros [_ ?]|].
    intros [Hsame Hv]. apply Hmiss.
    assert (r = r0) as ->; [|done].
    by apply (NoDup_fmap_eq_gen (λ r : User.t * bool, User.Email r.1) (users db)).
Qed.

(** X19. [DeleteUser] is a soft delete. After it the user cannot be read
    by id or by email and cannot be deleted again, but the row is still
    in the table and still holds the email: [CreateUser] with the email
    of the deleted user fails and stores nothing. The emails of the
    table are distinct (the UNIQUE constraint). *)
Theorem DeleteUser_keeps_email (db db' : DB) (id : string) :
  NoDup ((λ r, User.Email r.1) <$> users db) →
  UserRepository.DeleteUser db id = (db', None) →
  ∃ user,
    UserRepository.GetUserByID db id = (Some user, None)
    ∧ UserRepository.GetUserByID db' id
      = (None, Some (wrap_error "failed to get user by ID" pgx_ErrNoRows))
    ∧ UserRepository.GetUserByEmail db' (User.Email user)
      = (None, Some (wrap_error "failed to get user by email" pgx_ErrNoRows))
    ∧ UserRepository.DeleteUser db' id
      = (db', Some (fmt_Errorf "user not found or already deleted"))
    ∧ length (users db') = length (users db)
    ∧ ∀ now uuid new,
        User.Email new = User.Email user →
        ∃ err, UserRepository.CreateUser db' now uuid new = (db', new, Some err).
Proof.
  intros Hemail Hdel.
  destruct (DeleteUser_hides db db' id Hemail Hdel)
    as (user & Hget & Hrow & Hlen & Hid & Hmail).
  exists user. split; [done|].
  unfold UserRepository.GetUserByID, UserRepository.GetUserByEmail,
    UserRepository.DeleteUser.
  rewrite Hid, Hmail. cbn. repeat split; try done.
  intros now uuid new Hnew. unfold UserRepository.CreateUser.
  destruct (existsb _ (users db')); [by eexists|].
  assert (Htaken : existsb (λ r, String.eqb (User.Email r.1) (User.Email new)) (users db')
                   = true).
  { apply existsb_exists. exists (user, true). split; [by apply list_elem_of_In|].
    cbn. by apply String.eqb_eq. }
  rewrite Htaken. by eexists.
Qed.

Lemma DeleteUser_keeps_email_witness :
  ∃ err,
    UserRepository.CreateUser (UserRepository.DeleteUser example_db "u1").1 5 "u3"
      (User.set_ID EmptyString example_user)
    = ((UserRepository.DeleteUser example_db "u1").1,
       User.set_ID EmptyString example_user, Some err).
Proof.
  destruct (DeleteUser_keeps_email example_db (UserRepository.DeleteUser example_db "u1").1
              "u1") as (user & Hget & _ & _ & _ & _ & Hcreate).
  - cbn. apply (bool_decide_unpack _). vm_compute. exact I.
  - vm_compute. reflexivity.
  - injection Hget as <-. by apply Hcreate.
Defined.

Lemma GetUserByID_updated_password (db : DB) (now : time) (userID hash : string)
    (user : User.t) :
  UserRepository.GetUserByID db userID = (Some user, None) →
  ∃ db',
    UserRepository.UpdateUserPassword db now userID hash = (db', None)
    ∧ UserRepository.GetUserByID db' userID
      = (Some (UserRepository.password_row now hash user), None)
    ∧ user_programs db' = user_programs db
    ∧ ∀ other, other ≠ userID →
        UserRepository.GetUserByID db' other = UserRepository.GetUserByID db other.
Proof.
  unfold UserRepository.GetUserByID, UserRepository.UpdateUserPassword. intros Hget.
  destruct (filter _ (users db)) as [|r rest] eqn:Hf; [done|]. injection Hget as <-.
  cbn. eexists. split; [done|]. cbn. split; [|split; [done|]].
  - rewrite (filter_map_pres (λ r : User.t * bool, User.ID r.1 = userID ∧ r.2 = false)).
    + rewrite Hf. cbn [map].
      assert (Hr : r ∈ filter (λ r : User.t * bool, User.ID r.1 = userID ∧ r.2 = false)
                              (users db)) by (rewrite Hf; constructor).
      apply list_elem_of_filter in Hr as [Hr _]. by rewrite decide_True.
    + intros x. destruct (decide _) as [Hx|Hx]; [|done]. cbn. tauto.
  - intros other Hother.
    rewrite (filter_map_pres (λ r : User.t * bool, User.ID r.1 = other ∧ r.2 = false)).
    + assert (Hsame : map (λ r0 : User.t * bool,
                             if decide (User.ID r0.1 = userID ∧ r0.2 = false)
                             then (UserRepository.password_row now hash r0.1, r0.2)
                             else r0)
                          (filter (λ r : User.t * bool, User.ID r.1 = other ∧ r.2 = false)
                                  (users db))
                      = filter (λ r : User.t * bool, User.ID r.1 = other ∧ r.2 = false)
                               (users db)).
      { rewrite <- (map_id (filter _ (users db))) at 2. apply map_ext_in.
        intros x Hx%list_elem_of_In%list_elem_of_filter.
        rewrite decide_False; [done|]. intros [? _]. destruct Hx as [[? _] _]. congruence. }
      by rewrite Hsame.
    + intros x. destruct (decide _) as [Hx|Hx]; [|done]. cbn. tauto.
Qed.

(** X20. [UpdatePassword] answers 200 only when the stored user was
    found, [CheckPassword] accepted the old password against the stored
    hash and the new password was hashed; the stored row then carries
    that hash and the time of the update and is otherwise unchanged, and
    no other user's row changes. With any other answer (an error with
    status 401 or 500) the database is as before. *)
Theorem UpdatePassword_outcomes (db : DB) (now : time) (salt userID : string)
    (OldPassword NewPassword : string) :
  (∃ user hashedPassword db',
      UserHandler.UpdatePassword db now salt userID OldPassword NewPassword
      = (db', JSON_message 200 "Password updated successfully")
      ∧ UserRepository.GetUserByID db userID = (Some user, None)
      ∧ middleware.CheckPassword OldPassword (User.PasswordHash user) = None
      ∧ middleware.HashPassword salt NewPassword = (hashedPassword, None)
      ∧ UserRepository.GetUserByID db' userID
        = (Some (UserRepository.password_row now hashedPassword user), None)
      ∧ ∀ other, other ≠ userID →
          UserRepository.GetUserByID db' other = UserRepository.GetUserByID db other)
  ∨ (∃ status error,
      UserHandler.UpdatePassword db now salt userID OldPassword NewPassword
      = (db, JSON_error status error)
      ∧ (status = 401 ∨ status = 500)).
Proof.
  unfold UserHandler.UpdatePassword, userService.GetUserByID,
    userService.UpdateUserPassword.
  destruct (UserRepository.GetUserByID db userID) as [[user|] [err|]] eqn:Hget;
    try (right; do 2 eexists; split; [reflexivity|]; tauto).
  destruct (middleware.CheckPassword _ _) as [err|] eqn:Hcheck;
    [right; do 2 eexists; split; [reflexivity|]; tauto|].
  destruct (middleware.HashPassword _ _) as [hashedPassword [err|]] eqn:Hhash;
    [right; do 2 eexists; split; [reflexivity|]; tauto|].
  destruct (GetUserByID_updated_password db now userID hashedPassword user Hget)
    as (db' & Hupd & Hget' & _ & Hothers).
  rewrite Hupd. left. by exists user, hashedPassword, db'.
Qed.

(** X21. [Login] answers 200 only when a visible user has the email and
    [CheckPassword] accepts the password against the stored hash; the
    answer then holds the stored user with the password hash blanked and
    an expiry seven days ahead. The only other answers are status 500
    when the token cannot be signed, which also needs an accepted
    password, and status 401 with the text "Invalid email or password",
    the same for an unknown email and for a wrong password. *)
Theorem Login_outcomes (db : DB) (now : time) (Email Password : string) :
  (∃ token stored,
      AuthHandler.Login db now Email Password
      = JSON_AuthResponse 200 token (now + 24 * time_Hour * 7)
          (User.set_PasswordHash EmptyString stored)
      ∧ (stored, false) ∈ users db
      ∧ User.Email stored = Email
      ∧ middleware.CheckPassword Password (User.PasswordHash stored) = None)
  ∨ (∃ stored,
      AuthHandler.Login db now Email Password = JSON_error 500 "Failed to generate token"
      ∧ (stored, false) ∈ users db
      ∧ User.Email stored = Email
      ∧ middleware.CheckPassword Password (User.PasswordHash stored) = None)
  ∨ AuthHandler.Login db now Email Password = JSON_error 401 "Invalid email or password".
Proof.
  unfold AuthHandler.Login, userService.GetUserByEmail.
  unfold UserRepository.GetUserByEmail.
  destruct (filter _ (users db)) as [|[stored deleted] rest] eqn:Hf; [by right; right|].
  assert (Hr : (stored, deleted) ∈ filter (λ r : User.t * bool,
                                             User.Email r.1 = Email ∧ r.2 = false)
                                          (users db)) by (rewrite Hf; constructor).
  apply list_elem_of_filter in Hr as [[Hmail Hvisible] Hin]. cbn in Hmail, Hvisible.
  subst deleted. cbn [fst].
  destruct (middleware.CheckPassword _ _) as [err|] eqn:Hcheck; [by right; right|].
  destruct (middleware.GenerateJWT _ _ _) as [token [err|]].
  - right; left. by exists stored.
  - left. by exists token, stored.
Qed.

(** X22. A deleted user cannot log in: after [DeleteUser], [Login] with
    the email of the deleted user answers 401 for every password. *)
Theorem DeleteUser_then_Login (db db' : DB) (id : string) (user : User.t) (now : time)
    (Password : string) :
  NoDup ((λ r, User.Email r.1) <$> users db) →
  UserRepository.GetUserByID db id = (Some user, None) →
  UserRepository.DeleteUser db id = (db', None) →
  AuthHandler.Login db' now (User.Email user) Password
  = JSON_error 401 "Invalid email or password".
Proof.
  intros Hemail Hget Hdel.
  destruct (DeleteUser_hides db db' id Hemail Hdel) as (user' & Hget' & _ & _ & _ & Hmail).
  rewrite Hget in Hget'. injection Hget' as <-.
  unfold AuthHandler.Login, userService.GetUserByEmail, UserRepository.GetUserByEmail.
  by rewrite Hmail.
Qed.
End accounts.

Lemma DeleteUser_then_Login_witness :
  AuthHandler.Login (H := example_libraries)
    (UserRepository.DeleteUser example_db "u1").1 9 "jo@example.com" "ash"
  = JSON_error 401 "Invalid email or password"
  ∧ ∃ token expiresAt user,
      AuthHandler.Login (H := example_libraries) example_db 9 "jo@example.com" "ash"
      = JSON_AuthResponse 200 token expiresAt user.
Proof.
  split.
  - apply (DeleteUser_then_Login (H := example_libraries) example_db _ "u1" example_user).
    + cbn. apply (bool_decide_unpack _). vm_compute. exact I.
    + reflexivity.
    + vm_compute. reflexivity.
  - do 3 eexists. vm_compute. reflexivity.
Defined.

(** ** The bearer token *)

Section bearer.
Context `{Libraries}.

Lemma substring_all (s : string) : String.substring 0 (String.length s) s = s.
Proof. induction s as [|a s IH]; [done|]. cbn. by rewrite IH. Qed.

Lemma prefix_append (p t : string) : String.prefix p (String.append p t) = true.
Proof.
  induction p as [|a p IH]; [by destruct t|].
  change (String.prefix (String a p) (String a (String.append p t)) = true).
  cbn [String.prefix]. destruct (Ascii.ascii_dec a a); [exact IH|done].
Qed.

Lemma substring_append (p t : string) :
  String.substring (String.length p) (String.length (String.append p t) - String.length p)
    (String.append p t) = t.
Proof.
  induction p as [|a p IH]; simpl.
  - rewrite Nat.sub_0_r. apply substring_all.
  - exact IH.
Qed.

Lemma prefix_split (p s : string) :
  String.prefix p s = true →
  s = String.append p (String.substring (String.length p)
                         (String.length s - String.length p) s).
Proof.
  revert s. induction p as [|a p IH]; intros s Hp; cbn.
  - by rewrite Nat.sub_0_r, substring_all.
  - destruct s as [|b s]; [done|]. cbn in Hp.
    destruct (Ascii.ascii_dec a b) as [->|]; [|done].
    rewrite (IH s Hp) at 1. reflexivity.
Qed.

Lemma length_append (p t : string) :
  String.length (String.append p t) = (String.length p + String.length t)%nat.
Proof. induction p as [|a p IH]; [done|]. simpl. by rewrite IH. Qed.

Lemma append_cancel (p t t' : string) : String.append p t = String.append p t' → t = t'.
Proof.
  induction p as [|a p IH]; simpl; [done|]. intros [= Heq]. by apply IH.
Qed.

(** [strings.TrimPrefix] changes the string exactly when the prefix, not
    empty, was there, and then leaves the rest. *)
Lemma strings_TrimPrefix_spec (s p : string) :
  p ≠ EmptyString →
  (∃ t, s = String.append p t ∧ strings_TrimPrefix s p = t ∧ t ≠ s)
  ∨ ((∀ t, s ≠ String.append p t) ∧ strings_TrimPrefix s p = s).
Proof.
  intros Hp. unfold strings_TrimPrefix.
  destruct (String.prefix p s) eqn:Hprefix.
  - left. apply prefix_split in Hprefix. eexists. split; [exact Hprefix|]. split; [done|].
    intros Heq. rewrite Heq in Hprefix.
    apply (f_equal String.length) in Hprefix. rewrite length_append in Hprefix.
    destruct p; [done|]. cbn in Hprefix. lia.
  - right. split; [|done]. intros t ->. by rewrite prefix_append in Hprefix.
Qed.

(** X23. [AuthMiddleware] hands a request on exactly when the
    Authorization header is "Bearer " followed by a token that
    [jwt.ParseWithClaims] parses without error and marks valid; the
    user id it puts in the context is the one of the token's claims.
    Every other request is answered with status 401. *)
Theorem AuthMiddleware_passes_iff (now : time) (authHeader userID : string) :
  (middleware.AuthMiddleware now authHeader = Next userID
   ↔ ∃ tokenString claims,
       authHeader = String.append "Bearer " tokenString
       ∧ jwt_ParseWithClaims now tokenString = (claims, true, None)
       ∧ Claims.UserID claims = userID)
  ∧ ((∀ id, middleware.AuthMiddleware now authHeader ≠ Next id) →
     ∃ error, middleware.AuthMiddleware now authHeader = Abort (JSON_error 401 error)).
Proof.
  unfold middleware.AuthMiddleware, middleware.ValidateJWT.
  destruct (String.eqb_spec authHeader EmptyString) as [->|Hempty].
  { split; [|by eexists]. split; [done|]. by intros (t & c & ? & _). }
  destruct (strings_TrimPrefix_spec authHeader "Bearer ") as [(t & Hs & -> & Hne)|[Hno ->]];
    [done| |].
  - destruct (String.eqb_spec t authHeader) as [|_]; [done|].
    destruct (jwt_ParseWithClaims now t) as [[claims valid] [err|]] eqn:Hparse.
    + split; [|by eexists]. split; [done|].
      intros (t' & c & Hs' & Hparse' & _). rewrite Hs in Hs'.
      apply append_cancel in Hs' as <-. congruence.
    + destruct valid; cbn.
      * split; [|intros Hnever; by destruct (Hnever (Claims.UserID claims))].
        split.
        -- intros [= <-]. by exists t, claims.
        -- intros (t' & c & Hs' & Hparse' & <-). rewrite Hs in Hs'.
           apply append_cancel in Hs' as <-. congruence.
      * split; [|by eexists]. split; [done|].
        intros (t' & c & Hs' & Hparse' & _). rewrite Hs in Hs'.
        apply append_cancel in Hs' as <-. congruence.
  - rewrite String.eqb_refl. split; [|by eexists]. split; [done|].
    intros (t & c & Hs & _). by destruct (Hno t).
Qed.
End bearer.

(** ** Registration followed by an assignment *)

Section registration.
Import ProgramRepository ProgramService.

(** The database after a [Register] whose first write succeeded. *)
Lemma Register_steps (db : DB) (now : time) (uuid : string) (user : User.t) :
  (∀ r, r ∈ users db → User.ID r.1 ≠ uuid) →
  (∀ r, r ∈ users db → User.Email r.1 ≠ User.Email user) →
  UserRepository.users_check user = true →
  let row := User.mk uuid (User.Email user) (User.PasswordHash user) (User.Name user)
               (User.Age user) (User.Sex user) (User.Height user) (User.Weight user)
               (User.ActivityLevel user) (User.Goal user) (User.ProgramID user)
               (User.WeeklyBudget user) now now in
  let db1 := with_users (users db ++ [(row, false)]) db in
  AuthHandler.Register db now uuid user
  = if existsb (λ p, Program.ID p =? User.ProgramID user) (programs db)
    then (with_user_programs
            (user_programs db
             ++ [UserProgram.mk (user_programs_id_seq db) uuid (User.ProgramID user)
                   now true now])
            (user_programs_id_seq db + 1) db1, None)
    else (db1, Some (wrap_error "Failed to create user program"
                       (PgError "user_programs_program_id_fkey"))).
Proof.
  intros Hid Hemail Hcheck row db1. unfold AuthHandler.Register, UserRepository.CreateUser.
  assert (Hpk : existsb (λ r, String.eqb (User.ID r.1) uuid) (users db) = false).
  { apply not_true_iff_false. intros (r & Hr & Heq)%existsb_elem_of.
    apply String.eqb_eq in Heq. by destruct (Hid r Hr). }
  assert (Huniq : existsb (λ r, String.eqb (User.Email r.1) (User.Email user)) (users db)
                  = false).
  { apply not_true_iff_false. intros (r & Hr & Heq)%existsb_elem_of.
    apply String.eqb_eq in Heq. by destruct (Hemail r Hr). }
  rewrite Hpk, Huniq, Hcheck. cbn [negb].
  unfold UserRepository.CreateUserProgram. cbn.
  rewrite existsb_app. cbn. rewrite String.eqb_refl, orb_true_r. cbn.
  by destruct (existsb _ (programs db)).
Qed.

Lemma fresh_user_has_no_rows (db : DB) (uuid : string) :
  user_programs_fk db →
  (∀ r, r ∈ users db → User.ID r.1 ≠ uuid) →
  ∀ (P : UserProgram.t → Prop) `{∀ up, Decision (P up)},
    filter (λ up, UserProgram.UserID up = uuid ∧ P up) (user_programs db) = [].
Proof.
  intros Hfk Hid P ?. apply filter_keeps_none. intros up Hup [Hu _].
  destruct (Hfk up Hup) as (r & Hr & Heq). apply (Hid r Hr). congruence.
Qed.

(** X24. A user that [Register] has just created can be assigned any
    existing program: the enrolment that the registration wrote is the
    active program that [AssignProgramToUser] needs to find, and after
    the assignment the user has exactly one active program, the new
    one. The table [user_programs] refers to stored users (its foreign
    key). *)
Theorem Register_then_AssignProgramToUser (db db1 : DB) (now now' : time) (uuid : string)
    (user : User.t) (programID : Z) :
  user_programs_fk db →
  (∀ r, r ∈ users db → User.Email r.1 ≠ User.Email user) →
  AuthHandler.Register db now uuid user = (db1, None) →
  (∃ program, program ∈ programs db ∧ Program.ID program = programID) →
  ∃ db2 new,
    AssignProgramToUser db1 now' uuid programID = (db2, None)
    ∧ active_programs db2 uuid = [new]
    ∧ UserProgram.ProgramID new = programID
    ∧ UserProgram.StartDate new = now'.
Proof.
  intros Hfk Hemail Hreg (program & Hprogram & Hpid).
  assert (Hcu : ∃ dbu useru, UserRepository.CreateUser db now uuid user = (dbu, useru, None)).
  { unfold AuthHandler.Register in Hreg.
    destruct (UserRepository.CreateUser db now uuid user) as [[dbu useru] [e|]];
      [done|by eexists _, _]. }
  destruct Hcu as (dbu & useru & Hcu).
  pose proof (CreateUser_tables _ _ _ _ _ _ _ Hcu) as (_ & _ & Hok).
  destruct Hok as (_ & Hid & _); [done|].
  assert (Hcheck : UserRepository.users_check user = true).
  { unfold UserRepository.CreateUser in Hcu.
    repeat match type of Hcu with
           | (if ?b then _ else _) = _ => destruct b eqn:?; [done|]
           end.
    by destruct (UserRepository.users_check user). }
  rewrite (Register_steps db now uuid user Hid Hemail Hcheck) in Hreg.
  destruct (existsb _ (programs db)) eqn:Hp; [|done]. injection Hreg as <-.
  pose proof (fresh_user_has_no_rows db uuid Hfk Hid
                (λ up, UserProgram.IsActive up = true)) as Hnone.
  unfold AssignProgramToUser. rewrite GetUserActiveProgram_active.
  unfold active_programs. cbn.
  rewrite filter_app, Hnone, filter_cons_True, filter_nil by done. cbn.
  unfold UpdateUserProgram. cbn.
  rewrite filter_app, (filter_cons_True _ (UserProgram.mk _ _ _ _ _ _)) by done.
  rewrite length_app. cbn.
  replace (_ =? 0)%nat with false by (symmetry; apply Nat.eqb_neq; lia).
  unfold CreateUserProgram. cbn.
  rewrite existsb_app. cbn. rewrite String.eqb_refl, orb_true_r. cbn.
  assert (Hexists : existsb (λ p, Program.ID p =? programID) (programs db) = true).
  { apply existsb_elem_of. exists program. split; [done|]. by apply Z.eqb_eq. }
  rewrite Hexists. cbn.
  eexists _, (UserProgram.mk (user_programs_id_seq db + 1) uuid programID now' true now').
  split; [reflexivity|]. cbn. split; [|done].
  rewrite filter_app, filter_cons_True, filter_nil by done.
  rewrite map_app. cbn. rewrite decide_True by done. cbn.
  rewrite filter_app, filter_cons_False, filter_nil, app_nil_r by (cbn; intros [_ ?]; done).
  rewrite (filter_keeps_none _ (map _ (user_programs db))); [done|].
  intros up' (up & -> & Hup)%list_elem_of_fmap [Hu _].
  destruct (Hfk up Hup) as (r & Hr & Heq). apply (Hid r Hr).
  destruct (decide _); cbn in Hu; congruence.
Qed.

Lemma Register_then_AssignProgramToUser_witness :
  ∃ db2 new,
    AssignProgramToUser
      (AuthHandler.Register example_db 5 "u3"
         (User.mk EmptyString "ed@example.com" "hash" "Ed" 22 "other" (F 170) (F 70)
                  "sedentary" "maintenance" 1 (F 0) 0 0)).1
      6 "u3" 2
    = (db2, None)
    ∧ active_programs db2 "u3" = [new]
    ∧ UserProgram.ProgramID new = 2.
Proof.
  destruct (Register_then_AssignProgramToUser example_db
              (AuthHandler.Register example_db 5 "u3"
                 (User.mk EmptyString "ed@example.com" "hash" "Ed" 22 "other" (F 170) (F 70)
                          "sedentary" "maintenance" 1 (F 0) 0 0)).1
              5 6 "u3"
              (User.mk EmptyString "ed@example.com" "hash" "Ed" 22 "other" (F 170) (F 70)
                       "sedentary" "maintenance" 1 (F 0) 0 0) 2)
    as (db2 & new & Hassign & Hactive & Hp & _).
  - intros up Hup. cbn in Hup. apply list_elem_of_singleton in Hup as ->.
    exists (example_user, false). split; [constructor|done].
  - intros r Hr. cbn in Hr.
    apply elem_of_cons in Hr as [->|Hr]; [done|].
    apply list_elem_of_singleton in Hr as ->. done.
  - vm_compute. reflexivity.
  - exists (Program.mk 2 "B" EmptyString "strength" 8 0). split; [|done].
    cbn. apply elem_of_cons. right. constructor.
  - by exists db2, new.
Defined.

(** X25. [Register] is not atomic. When the program of the request does
    not exist, the second write fails after the first was done: the
    call returns an error, yet the user is stored, without any
    enrolment. No later [AssignProgramToUser] can give that user
    one, since it returns the lookup error of a user without active
    program, and the email cannot be registered again. *)
Theorem Register_half_done (db : DB) (now : time) (uuid : string) (user : User.t) :
  user_programs_fk db →
  (∀ r, r ∈ users db → User.ID r.1 ≠ uuid) →
  (∀ r, r ∈ users db → User.Email r.1 ≠ User.Email user) →
  UserRepository.users_check user = true →
  (∀ program, program ∈ programs db → Program.ID program ≠ User.ProgramID user) →
  ∃ db1 err stored,
    AuthHandler.Register db now uuid user = (db1, Some err)
    ∧ UserRepository.GetUserByID db1 uuid = (Some stored, None)
    ∧ User.Email stored = User.Email user
    ∧ active_programs db1 uuid = []
    ∧ (∀ now' programID,
         AssignProgramToUser db1 now' uuid programID = (db1, Some pgx_ErrNoRows))
    ∧ (∀ now' uuid' user',
         User.Email user' = User.Email user →
         ∃ err', AuthHandler.Register db1 now' uuid' user' = (db1, Some err')).
Proof.
  intros Hfk Hid Hemail Hcheck Hprogram.
  rewrite (Register_steps db now uuid user Hid Hemail Hcheck).
  assert (Hmissing : existsb (λ p, Program.ID p =? User.ProgramID user) (programs db)
                     = false).
  { apply not_true_iff_false. intros (p & Hp & Heq)%existsb_elem_of.
    apply Z.eqb_eq in Heq. by destruct (Hprogram p Hp). }
  rewrite Hmissing. eexists _, _, _. split; [reflexivity|].
  assert (Hactive : active_programs
                      (with_users (users db ++ [(User.mk uuid (User.Email user)
                         (User.PasswordHash user) (User.Name user) (User.Age user)
                         (User.Sex user) (User.Height user) (User.Weight user)
                         (User.ActivityLevel user) (User.Goal user) (User.ProgramID user)
                         (User.WeeklyBudget user) now now, false)]) db) uuid = []).
  { unfold active_programs. cbn.
    apply (fresh_user_has_no_rows db uuid Hfk Hid (λ up, UserProgram.IsActive up = true)). }
  split; [|split; [|split; [exact Hactive|split]]].
  - unfold UserRepository.GetUserByID. cbn.
    rewrite filter_app, (filter_keeps_none _ (users db)), filter_cons_True by
      (try done; intros r Hr [Heq _]; by destruct (Hid r Hr)).
    reflexivity.
  - done.
  - intros now' programID. by apply AssignProgramToUser_no_active.
  - intros now' uuid' user' Hsame. unfold AuthHandler.Register, UserRepository.CreateUser.
    cbn. destruct (existsb _ (users db ++ _)); [by eexists|].
    rewrite existsb_app. cbn. rewrite Hsame, String.eqb_refl, orb_true_r.
    by eexists.
Qed.

Lemma Register_half_done_witness :
  ∃ db1 err,
    AuthHandler.Register example_db 5 "u3"
      (User.mk EmptyString "ed@example.com" "hash" "Ed" 22 "other" (F 170) (F 70)
               "sedentary" "maintenance" 9 (F 0) 0 0)
    = (db1, Some err)
    ∧ active_programs db1 "u3" = [].
Proof.
  destruct (Register_half_done example_db 5 "u3"
              (User.mk EmptyString "ed@example.com" "hash" "Ed" 22 "other" (F 170) (F 70)
                       "sedentary" "maintenance" 9 (F 0) 0 0))
    as (db1 & err & stored & Hreg & _ & _ & Hactive & _).
  - intros up Hup. cbn in Hup. apply list_elem_of_singleton in Hup as ->.
    exists (example_user, false). split; [constructor|done].
  - intros r Hr. cbn in Hr.
    apply elem_of_cons in Hr as [->|Hr]; [done|].
    apply list_elem_of_singleton in Hr as ->. done.
  - intros r Hr. cbn in Hr.
    apply elem_of_cons in Hr as [->|Hr]; [done|].
    apply list_elem_of_singleton in Hr as ->. done.
  - vm_compute. reflexivity.
  - intros program Hp. cbn in Hp.
    apply elem_of_cons in Hp as [->|Hp]; [done|].
    apply list_elem_of_singleton in Hp as ->. done.
  - by exists db1, err.
Defined.
End registration.

(** ** The plan of a generated workout *)

Lemma sessionsPerWeek_range (workoutType : string) :
  3 ≤ WorkoutService.sessionsPerWeek workoutType ≤ 6.
Proof.
  unfold WorkoutService.sessionsPerWeek.
  repeat match goal with |- context [if ?b then _ else _] => destruct b end; lia.
Qed.

(** X26. For a duration from 1 to 52 weeks, the range that
    [GenerateWorkout] lets through, [generateWorkoutSessions] returns
    duration times sessions-per-week sessions (3 to 6 a week by the
    type, so 3 to 312 in all), none of them completed; their days count
    1, 2, ..., 7, 1, 2, ... through the whole plan, without a restart
    at the beginning of a week. *)
Theorem generateWorkoutSessions_plan (workoutType : string) (duration : Z) (user : User.t) :
  1 ≤ duration ≤ 52 →
  Z.of_nat (length (WorkoutService.generateWorkoutSessions workoutType duration user))
  = duration * WorkoutService.sessionsPerWeek workoutType
  ∧ 3 ≤ Z.of_nat (length (WorkoutService.generateWorkoutSessions workoutType duration user))
      ≤ 312
  ∧ ∀ (i : nat) (session : Session.t),
      WorkoutService.generateWorkoutSessions workoutType duration user !! i = Some session →
      Session.Day session = Z.of_nat i mod 7 + 1
      ∧ 1 ≤ Session.Day session ≤ 7
      ∧ Session.Completed session = false.
Proof.
  intros Hduration. pose proof (sessionsPerWeek_range workoutType) as Hper.
  unfold WorkoutService.generateWorkoutSessions.
  rewrite wrap64_small by (unfold is_int64; nia).
  rewrite length_map, length_seqZ.
  split; [lia|]. split; [nia|].
  intros i session Hi. rewrite list_lookup_fmap in Hi.
  apply fmap_Some in Hi as (k & Hk & ->). apply lookup_seqZ in Hk as [-> Hlt]. cbn.
  replace (1 + Z.of_nat i - 1) with (Z.of_nat i) by lia.
  rewrite Z.rem_mod_nonneg by lia.
  pose proof (Z.mod_pos_bound (Z.of_nat i) 7). repeat split; lia.
Qed.

Lemma generateWorkoutSessions_plan_witness :
  Z.of_nat (length (WorkoutService.generateWorkoutSessions "hypertrophy" 2 example_user)) = 8
  ∧ Session.Day <$> WorkoutService.generateWorkoutSessions "hypertrophy" 2 example_user
    = [1; 2; 3; 4; 5; 6; 7; 1].
Proof.
  destruct (generateWorkoutSessions_plan "hypertrophy" 2 example_user) as (Hlen & _ & _).
  - lia.
  - split; [exact Hlen|]. vm_compute. reflexivity.
Defined.

(** ** From a completed session to the next weights *)

Section feedback.
Import ProgramRepository ProgramService.







End feedback.

(** ** Repeating a profile update *)

Lemma field_update_idempotent {A : Type} (updates : gmap string any) (key : string)
    (accept : any → option A) (stored : A) :
  field_update updates key accept (field_update updates key accept stored)
  = field_update updates key accept stored.
Proof.
  unfold field_update. destruct (updates !! key) as [value|]; [|done].
  by destruct (accept value).
Qed.

(** X28. [validateAndApplyProfileUpdates] never returns an error, and
    applying the same update map to its result changes nothing more. *)
Theorem validateAndApplyProfileUpdates_idempotent (user : User.t)
    (updates : gmap string any) :
  ∃ updated,
    UserService.validateAndApplyProfileUpdates user updates = (updated, None)
    ∧ UserService.validateAndApplyProfileUpdates updated updates = (updated, None).
Proof.
  exists (updated_profile user updates).
  unfold UserService.validateAndApplyProfileUpdates.
  rewrite !(validateAndApplyProfileUpdates_in_order (map_to_list updates) updates) by done.
  split; [done|]. f_equal. unfold updated_profile. cbn.
  by rewrite !field_update_idempotent.
Qed.
